(** * Verification of the analytics core of [stock_screener.py]

    A shallow embedding of [StockScreener]: the moving average
    ([calculate_ma]), the trend test ([is_ma_trending_up]), the two cross
    detectors, the win-rate backtest and the per-symbol pipeline
    [screen_stock], followed by the properties stated about them.

    Numbers.  The program computes on IEEE doubles held in pandas and NumPy
    containers.  Here a double is a rational or NaN.  NaN is modelled
    because pandas uses it for "no value yet" and every comparison against
    it is false.  The rounding of sums, products and means is not modelled.
    The rounding of the least-squares fit is: what NumPy's solver returns
    for a window is compared with 0, a window whose least-squares slope is
    0 comes back as rounding noise, so the double the solver returns is an
    input of the model ([Solver]) and never assumed to be the least-squares
    slope itself.

    Dates.  The row labels of a frame are days.  A key given as text is
    read by pandas' date parser before it is looked up; what the parser
    makes of a text is an input of the model ([Parser]). *)

From Stdlib Require Import QArith Lqa Lia ZArith List String Ascii.
From stdpp Require Import base gmap strings list pretty sorting.

Local Open Scope string_scope.
Local Open Scope list_scope.

(** ** Floats with NaN *)

Abbreviation float := (option Q).
Definition NaN : float := None.

Definition flt (a b : float) : bool :=
  match a, b with
  | Some x, Some y => negb (Qle_bool y x)
  | _, _ => false
  end.

Definition fle (a b : float) : bool :=
  match a, b with
  | Some x, Some y => Qle_bool x y
  | _, _ => false
  end.

Definition fgt (a b : float) : bool := flt b a.
Definition fge (a b : float) : bool := fle b a.

Definition fmul (a b : float) : float :=
  match a, b with
  | Some x, Some y => Some (x * y)%Q
  | _, _ => NaN
  end.

Definition of_int (z : Z) : float := Some (inject_Z z).

(** ** Exceptions *)

Inductive exn : Set :=
  | KeyError | IndexError | TypeError | ValueError | LinAlgError.

Inductive result (A : Type) : Type :=
  | Ok (a : A)
  | Raise (e : exn).
Arguments Ok {A} a.
Arguments Raise {A} e.

Definition rbind {A B} (r : result A) (k : A -> result B) : result B :=
  match r with
  | Ok a => k a
  | Raise e => Raise e
  end.

(** ** Series: positional access *)

(** [l[s:e]] for [0 <= s], [0 <= e]. *)
Definition slice {A} (l : list A) (s e : nat) : list A := take (e - s) (drop s l).

(** [series.iloc[k]]: a negative position counts from the end. *)
Definition iloc {A} (l : list A) (k : Z) : result A :=
  let n := Z.of_nat (length l) in
  let p := if (k <? 0)%Z then (n + k)%Z else k in
  if (p <? 0)%Z || (n <=? p)%Z then Raise IndexError
  else match l !! Z.to_nat p with
       | Some a => Ok a
       | None => Raise IndexError
       end.

(** [series.tail(n)] for [0 <= n]. *)
Definition tail {A} (n : nat) (l : list A) : list A := drop (length l - n) l.

Definition sumQ (l : list Q) : Q := fold_left Qplus l 0%Q.

(** [series.mean()]: NaN entries are skipped, an empty selection gives NaN. *)
Definition series_mean (l : list float) : float :=
  let ds := omap id l in
  match ds with
  | [] => NaN
  | _ => Some (sumQ ds / inject_Z (Z.of_nat (length ds)))%Q
  end.

Definition series_mul (a b : list float) : list float := zip_with fmul a b.

(** ** MovingAverageEngine: [prices.rolling(window=period).mean()]

    pandas slides a fixed window whose bounds at position [i] are
    [start = max(0, i + 1 - window)] and [end = i + 1], keeps a running
    count [nobs] and sum [sum_x] of the non-NaN entries inside it, and
    emits [sum_x / nobs] once [nobs >= min_periods] (which defaults to the
    window length) and [nobs > 0], NaN otherwise.  The result-clamping of
    [calc_mean] only repairs rounding and is the identity on exact
    numbers. *)

Definition add_mean (st : Z * Q) (val : float) : Z * Q :=
  match val with
  | Some v => ((st.1 + 1)%Z, (st.2 + v)%Q)
  | None => st
  end.

Definition remove_mean (st : Z * Q) (val : float) : Z * Q :=
  match val with
  | Some v => ((st.1 - 1)%Z, (st.2 - v)%Q)
  | None => st
  end.

Definition calc_mean (minp : Z) (st : Z * Q) : float :=
  if (minp <=? st.1)%Z && (0 <? st.1)%Z
  then Some (st.2 / inject_Z st.1)%Q
  else NaN.

Definition window_start (w i : nat) : nat := i + 1 - w.
Definition window_end (i : nat) : nat := i + 1.

Definition roll_step (values : list float) (w : nat) (st : Z * Q) (i : nat)
  : Z * Q :=
  let s := window_start w i in
  let e := window_end i in
  if (i =? 0)%nat || (window_end (i - 1) <=? s)%nat
  then fold_left add_mean (slice values s e) (0%Z, 0%Q)
  else fold_left add_mean (slice values (window_end (i - 1)) e)
         (fold_left remove_mean (slice values (window_start w (i - 1)) s) st).

Fixpoint roll_mean_from (values : list float) (w : nat) (minp : Z)
    (st : Z * Q) (i n : nat) : list float :=
  match n with
  | O => []
  | S n' =>
      let st' := roll_step values w st i in
      calc_mean minp st' :: roll_mean_from values w minp st' (S i) n'
  end.

Definition roll_mean (values : list float) (w : nat) (minp : Z) : list float :=
  roll_mean_from values w minp (0%Z, 0%Q) 0 (length values).

Definition rolling_mean (values : list float) (window : nat) : list float :=
  roll_mean values window (Z.of_nat window).

(** [Rolling] validation: "window must be an integer 0 or greater". *)
Definition calculate_ma (prices : list float) (period : Z)
  : result (list float) :=
  if (period <? 0)%Z then Raise ValueError
  else Ok (rolling_mean prices (Z.to_nat period)).

(** ** TrendDetector *)

(** [np.arange(n)] as floats: empty for [n <= 0]. *)
Definition arange (n : Z) : list Q :=
  map (fun k => inject_Z (Z.of_nat k)) (seq 0 (Z.to_nat n)).

(** [series.iloc[k:]]: Python clips the start of a slice into [0, len]. *)
Definition iloc_from {A} (l : list A) (k : Z) : list A :=
  let n := Z.of_nat (length l) in
  let start := if (k <? 0)%Z then Z.max (n + k) 0 else Z.min k n in
  drop (Z.to_nat start) l.

Definition dot (x y : list Q) : Q := sumQ (zip_with Qmult x y).

(** The least-squares solver behind [np.polyfit].  NumPy scales the
    columns of the design matrix and hands it to LAPACK, which solves by a
    singular value decomposition in double precision.  The first
    coefficient it returns is the least-squares slope up to rounding only:
    for points that lie on a horizontal line it is in general not 0 but a
    number of the order of 1e-16 times the ordinates.  A [Solver] gives the
    double returned for finite abscissae and ordinates; it is an input of
    the model.  It is applied to numbers in lowest terms, so that it
    depends on the values and not on the fractions that represent them. *)
Abbreviation Solver := (list Q -> list Q -> float).

Definition canonical (l : list Q) : list Q := map Qred l.

(** [np.polyfit(x, y, 1)[0]].  NumPy rejects an empty [x] and vectors of
    different lengths with a TypeError.  It then divides each column of the
    design matrix [(x_i, 1)] by its Euclidean norm: when every [x_i] is 0
    that is 0/0, and LAPACK's least-squares driver refuses the matrix
    (LinAlgError).  A NaN among the [y_i] is not refused, it comes back as a
    NaN coefficient.  Otherwise the slope is what the solver returns. *)
Definition polyfit1_slope (lstsq : Solver) (x : list Q) (y : list float)
  : result float :=
  match x with
  | [] => Raise TypeError
  | _ =>
      if negb (length x =? length y)%nat then Raise TypeError
      else if Qeq_bool (dot x x) 0 then Raise LinAlgError
      else match mapM id y with
           | None => Ok NaN
           | Some ys => Ok (lstsq (canonical x) (canonical ys))
           end
  end.

Definition is_ma_trending_up (lstsq : Solver) (ma : list float) (lookback : Z)
  : result bool :=
  if (Z.of_nat (length ma) <? lookback)%Z then Ok false
  else
    let recent_ma := iloc_from ma (- lookback) in
    let x := arange lookback in
    rbind (polyfit1_slope lstsq x recent_ma) (fun slope =>
    Ok (fgt slope (of_int 0))).

(** ** CrossDetector *)

Definition check_bottom_cross_ma200 (low close ma200 : float) : bool :=
  fle low ma200 && flt ma200 close.

Definition check_golden_cross (ma_short ma_long : list float) : result bool :=
  if (length ma_short <? 2)%nat || (length ma_long <? 2)%nat then Ok false
  else
    rbind (iloc ma_short (-2)) (fun prev_short =>
    rbind (iloc ma_long (-2)) (fun prev_long =>
    rbind (iloc ma_short (-1)) (fun curr_short =>
    rbind (iloc ma_long (-1)) (fun curr_long =>
    Ok (flt prev_short prev_long && fge curr_short curr_long))))).

(** ** The data frame

    A frame is its row labels (trading days, each written as its ISO date)
    and its named columns.  [data[name] = col] stores into the frame
    itself. *)

Record DataFrame : Type := {
  index : list string;
  columns : gmap string (list float)
}.

Definition len (data : DataFrame) : Z := Z.of_nat (length (index data)).

(** [data.empty]: some axis has length 0. *)
Definition empty (data : DataFrame) : bool :=
  (length (index data) =? 0)%nat || (size (columns data) =? 0)%nat.

Definition getitem (data : DataFrame) (name : string) : result (list float) :=
  match columns data !! name with
  | Some c => Ok c
  | None => Raise KeyError
  end.

Definition setitem (data : DataFrame) (name : string) (c : list float)
  : DataFrame :=
  {| index := index data; columns := <[name := c]> (columns data) |}.

(** ** WinRateBacktester *)

Fixpoint positions (idx : list string) (key : string) (i : nat) : list nat :=
  match idx with
  | [] => []
  | d :: rest =>
      if String.eqb d key then i :: positions rest key (S i)
      else positions rest key (S i)
  end.

(** pandas' reading of a key given as text, on an index of days: the day
    the text denotes, written like the labels, or nothing when the text is
    not read as one day (it is no date, or it names a month or a year).
    Which spellings the parser accepts is an input of the model; with
    [iso_only], which takes every text for the day it spells, a day is
    found under the labels' own spelling only. *)
Abbreviation Parser := (string -> option string).

Definition iso_only : Parser := Some.

(** [data.index.get_loc(key)] followed by integer arithmetic on the result:
    the key is parsed, and the day it denotes is looked up.  A key that is
    not one day, or a day that is missing, is a KeyError (for a month or a
    year the lookup gives a slice, on which the caller's arithmetic fails:
    an exception either way); a day that occurs more than once yields a
    slice or a mask, on which the caller's [+ forward_days] or [if]
    fails. *)
Definition get_loc (parse : Parser) (idx : list string) (key : string)
  : result Z :=
  match parse key with
  | None => Raise KeyError
  | Some day =>
      match positions idx day 0 with
      | [] => Raise KeyError
      | [i] => Ok (Z.of_nat i)
      | _ => Raise TypeError
      end
  end.

(** One iteration of the loop; [try ... except: continue] leaves the
    counters as they were. *)
Definition win_step (parse : Parser) (data : DataFrame) (forward_days : Z)
    (acc : Z * Z) (signal_date : string) : Z * Z :=
  let attempt :=
    rbind (get_loc parse (index data) signal_date) (fun signal_idx =>
    if (signal_idx + forward_days <? len data)%Z then
      rbind (getitem data "Close") (fun close =>
      rbind (iloc close signal_idx) (fun entry_price =>
      rbind (iloc close (signal_idx + forward_days)) (fun exit_price =>
      let wins := if fgt exit_price entry_price then (acc.1 + 1)%Z else acc.1 in
      Ok (wins, (acc.2 + 1)%Z))))
    else Ok acc) in
  match attempt with
  | Ok acc' => acc'
  | Raise _ => acc
  end.

Definition win_loop (parse : Parser) (data : DataFrame)
    (signal_dates : list string) (forward_days : Z) : Z * Z :=
  fold_left (win_step parse data forward_days) signal_dates (0%Z, 0%Z).

Definition calculate_win_rate (parse : Parser) (data : DataFrame)
    (signal_dates : list string) (forward_days : Z) : Q :=
  match signal_dates with
  | [] => 0%Q
  | _ =>
      let '(wins, total) := win_loop parse data signal_dates forward_days in
      if (0 <? total)%Z
      then (inject_Z wins / inject_Z total * inject_Z 100)%Q
      else 0%Q
  end.

(** ** LiquidityClassifier (the [risk_tag] ladder of [screen_stock]) *)

Definition risk_tag (avg_volume_30d : float) : string :=
  if fge avg_volume_30d (of_int 100000000) then "🟢安定"
  else if fge avg_volume_30d (of_int 10000000) then "🟡標準"
  else "🔴冒険".

(** ** ScreeningOrchestrator *)

(** The dictionary returned for an accepted symbol. *)
Record SignalResult : Type := {
  r_code : string;
  r_name : string;
  r_price : float;
  r_ma200_trend : string;
  r_bottom_cross : string;
  r_golden_cross : string;
  r_avg_volume_30d : float;
  r_risk_tag : string;
  r_date : string
}.

(** A row taken out of the frame: its label and one value per column. *)
Record Row : Type := {
  row_name : string;
  row_values : gmap string float
}.

(** [data.iloc[k]] on a frame, for the last row. *)
Definition row_last (data : DataFrame) : result Row :=
  match last (index data) with
  | None => Raise IndexError
  | Some d =>
      Ok {| row_name := d;
            row_values := (fun c => default NaN (last c)) <$> columns data |}
  end.

Definition row_get (r : Row) (name : string) : result float :=
  match row_values r !! name with
  | Some v => Ok v
  | None => Raise KeyError
  end.

(** Python's [a or b] on an optional string: [None] and [""] are falsy. *)
Definition py_or (a : option string) (b : string) : string :=
  match a with
  | Some s => if String.eqb s "" then b else s
  | None => b
  end.

(** Statements of [screen_stock] run against the frame they may update and
    may raise. *)
Definition M (A : Type) : Type := DataFrame -> result A * DataFrame.

Definition ret {A} (a : A) : M A := fun data => (Ok a, data).

Definition bind {A B} (c : M A) (k : A -> M B) : M B :=
  fun data =>
    match c data with
    | (Ok a, data') => k a data'
    | (Raise e, data') => (Raise e, data')
    end.

Definition lift {A} (r : result A) : M A := fun data => (r, data).
Definition read {A} (f : DataFrame -> A) : M A := fun data => (Ok (f data), data).
Definition load (name : string) : M (list float) :=
  fun data => (getitem data name, data).
Definition store (name : string) (c : list float) : M unit :=
  fun data => (Ok tt, setitem data name c).

Declare Scope frame_scope.
Delimit Scope frame_scope with frame.
Notation "x <- c ;; k" := (bind c (fun x => k))
  (at level 100, c at next level, right associativity) : frame_scope.
Notation "c ;;; k" := (bind c (fun _ => k))
  (at level 100, right associativity) : frame_scope.

(** [info] is what [ticker.info] gives: a dictionary, or an exception. *)
Definition resolve_name (info : result (gmap string string))
    (code name : string) : string :=
  if String.eqb name code then
    match info with
    | Ok i => py_or (i !! "longName") (py_or (i !! "shortName") code)
    | Raise _ => code
    end
  else name.

(** The body of the [try] block, from the frame [ticker.history] returned. *)
Definition screen_body (lstsq : Solver) (min_volume : Z)
    (info : result (gmap string string))
    (code name : string) : M (option SignalResult) :=
  (is_empty <- read empty ;;
   n <- read len ;;
   if is_empty || (n <? 200)%Z then ret None else
   let name := resolve_name info code name in
   close <- load "Close" ;;
   volume <- load "Volume" ;;
   store "Volume_Yen" (series_mul close volume) ;;;
   volume_yen <- load "Volume_Yen" ;;
   let avg_volume_30d := series_mean (tail 30 volume_yen) in
   if flt avg_volume_30d (of_int min_volume) then ret None else
   close <- load "Close" ;;
   ma50 <- lift (calculate_ma close 50) ;;
   store "MA50" ma50 ;;;
   close <- load "Close" ;;
   ma100 <- lift (calculate_ma close 100) ;;
   store "MA100" ma100 ;;;
   close <- load "Close" ;;
   ma200 <- lift (calculate_ma close 200) ;;
   store "MA200" ma200 ;;;
   latest <- (fun data => (row_last data, data)) ;;
   ma200 <- load "MA200" ;;
   trending <- lift (is_ma_trending_up lstsq ma200 5) ;;
   if negb trending then ret None else
   low <- lift (row_get latest "Low") ;;
   close <- lift (row_get latest "Close") ;;
   ma200 <- lift (row_get latest "MA200") ;;
   let bottom_cross := check_bottom_cross_ma200 low close ma200 in
   ma50 <- load "MA50" ;;
   ma100 <- load "MA100" ;;
   golden_cross <- lift (check_golden_cross ma50 ma100) ;;
   if bottom_cross || golden_cross then
     price <- lift (row_get latest "Close") ;;
     ret (Some {| r_code := code;
                  r_name := name;
                  r_price := price;
                  r_ma200_trend := "上昇";
                  r_bottom_cross := if bottom_cross then "✅" else "—";
                  r_golden_cross := if golden_cross then "✅" else "—";
                  r_avg_volume_30d := avg_volume_30d;
                  r_risk_tag := risk_tag avg_volume_30d;
                  r_date := row_name latest |})
   else ret None)%frame.

(** [screen_stock]: any exception of the body is swallowed and gives
    [None]; the second component is the frame as the call leaves it. *)
Definition screen_stock (lstsq : Solver) (min_volume : Z)
    (info : result (gmap string string))
    (code name : string) (data : DataFrame)
  : option SignalResult * DataFrame :=
  match screen_body lstsq min_volume info code name data with
  | (Ok r, data') => (r, data')
  | (Raise _, data') => (None, data')
  end.

(** ** Price series as the provider supplies them *)

Record PricePoint : Type := {
  date : string;
  open : Q;
  high : Q;
  low : Q;
  close : Q;
  volume : Z
}.

Definition column (f : PricePoint -> Q) (series : list PricePoint)
  : list float := map (fun p => Some (f p)) series.

(** The frame of a series: one row per bar, one column per field. *)
Definition history (series : list PricePoint) : DataFrame :=
  {| index := map date series;
     columns :=
       <["Open" := column open series]>
       (<["High" := column high series]>
       (<["Low" := column low series]>
       (<["Close" := column close series]>
       (<["Volume" := column (fun p => inject_Z (volume p)) series]> ∅)))) |}.

(** ** The symbol universe and the scan

    [get_jpx_stock_list] builds the codes to try; [scan_all_stocks] screens
    them in order and collects the accepted results.  What [yfinance]
    answers for a ticker symbol is an input of the model: [market] maps the
    symbol to the outcome of [history] and of [info], each a value or an
    exception.  Console output and the pause between requests are left
    out. *)

(** [range(a, b)], [str(n)] and [s.zfill(width)]. *)
Definition range (a b : Z) : list Z :=
  map (fun k => (a + Z.of_nat k)%Z) (seq 0 (Z.to_nat (b - a))).

Definition str (z : Z) : string := pretty z.

Fixpoint zeros (n : nat) : string :=
  match n with
  | O => ""
  | S n' => String "0" (zeros n')
  end.

Definition zfill (width : nat) (s : string) : string :=
  let fill := width - String.length s in
  match s with
  | String c rest =>
      if Ascii.eqb c "+" || Ascii.eqb c "-"
      then String c (zeros fill +:+ rest)
      else zeros fill +:+ s
  | EmptyString => zeros fill
  end.

Record Stock : Type := {
  s_code : string;
  s_name : string
}.

Definition code_ranges : list Z :=
  range 1300 1500 ++ range 1700 2000 ++ range 2000 3000 ++ range 3000 4000
  ++ range 4000 5000 ++ range 5000 6000 ++ range 6000 7000
  ++ range 7000 8000 ++ range 8000 9000 ++ range 9000 9999.

Definition get_jpx_stock_list : list Stock :=
  map (fun code => {| s_code := zfill 4 (str code); s_name := str code |})
    code_ranges.

Record Ticker : Type := {
  t_history : result DataFrame;
  t_info : result (gmap string string)
}.

(** [screen_stock(code, name)] as the scan calls it, fetch included: an
    exception of the fetch is swallowed like any other. *)
Definition screen_symbol (lstsq : Solver) (min_volume : Z)
    (market : string -> Ticker)
    (code name : string) : option SignalResult :=
  let ticker := market (code +:+ ".T") in
  match t_history ticker with
  | Ok data => (screen_stock lstsq min_volume (t_info ticker) code name data).1
  | Raise _ => None
  end.

(** [df.head(n)]: the first [n] rows, or all but the last [-n]. *)
Definition head {A} (n : Z) (l : list A) : list A :=
  if (n <? 0)%Z then take (length l - Z.to_nat (- n)) l
  else take (Z.to_nat n) l.

(** [if max_stocks:] is false for [None] and for 0. *)
Definition select_stocks (max_stocks : option Z) (stocks_df : list Stock)
  : list Stock :=
  match max_stocks with
  | Some n => if (n =? 0)%Z then stocks_df else head n stocks_df
  | None => stocks_df
  end.

Definition scan_step (lstsq : Solver) (min_volume : Z)
    (market : string -> Ticker)
    (results : list SignalResult) (row : Stock) : list SignalResult :=
  match screen_symbol lstsq min_volume market (s_code row) (s_name row) with
  | Some result => results ++ [result]
  | None => results
  end.

Definition scan_all_stocks (lstsq : Solver) (min_volume : Z)
    (market : string -> Ticker)
    (max_stocks : option Z) : list SignalResult :=
  let stocks_df := select_stocks max_stocks get_jpx_stock_list in
  fold_left (scan_step lstsq min_volume market) stocks_df [].

(** ** Notifier

    What the notifier does to the outside is a list of events: lines
    printed and requests posted.  The date of the day, Python's fixed-point
    formatting of a float ([:.0f], [:.1f]) and the answer of
    [requests.post] (a status code, or an exception) are inputs. *)

Inductive event : Type :=
  | Print (line : string)
  | Post (url key body : string).

Definition nl : string := String (ascii_of_nat 10) "".

(** [a / b] for a divisor that is not zero (the only one used is 1e8). *)
Definition fdiv (a b : float) : float :=
  match a, b with
  | Some x, Some y => if Qeq_bool y 0 then NaN else Some (x / y)%Q
  | _, _ => NaN
  end.

Definition format_result (fmt0 fmt1 : float -> string) (r : SignalResult)
  : string :=
  nl +:+ "【" +:+ r_code r +:+ "】" +:+ r_name r +:+ nl
  +:+ "💵 株価: ¥" +:+ fmt0 (r_price r) +:+ nl
  +:+ "📈 200日線: " +:+ r_ma200_trend r +:+ nl
  +:+ "🔄 底値クロス: " +:+ r_bottom_cross r +:+ nl
  +:+ "⭐ GC: " +:+ r_golden_cross r +:+ nl
  +:+ r_risk_tag r +:+ " 流動性: ¥"
  +:+ fmt1 (fdiv (r_avg_volume_30d r) (of_int 100000000)) +:+ "億" +:+ nl
  +:+ nl.

Definition format_message (today : string) (fmt0 fmt1 : float -> string)
    (results : list SignalResult) : string :=
  match results with
  | [] =>
      nl +:+ "📊 日本株スクリーニング結果" +:+ nl
      +:+ "📅 " +:+ today +:+ nl +:+ nl
      +:+ "🔇 本日は条件に合致する銘柄がありませんでした。" +:+ nl
      +:+ "💰 現金でお待ちください。" +:+ nl
  | _ =>
      let msg :=
        nl +:+ "📊 日本株スクリーニング結果" +:+ nl
        +:+ "📅 " +:+ today +:+ nl +:+ nl
        +:+ "🎯 " +:+ pretty (length results) +:+ "銘柄が条件に合致しました:"
        +:+ nl +:+ nl in
      let msg :=
        fold_left (fun msg r => msg +:+ format_result fmt0 fmt1 r)
          (take 10 results) msg in
      if (10 <? length results)%nat
      then msg +:+ nl +:+ "...他" +:+ pretty (length results - 10) +:+ "銘柄"
      else msg
  end.

(** [if not webhook]: unset and empty both count as missing. *)
Definition webhook_set (webhook : option string) : option string :=
  match webhook with
  | Some url => if String.eqb url "" then None else Some url
  | None => None
  end.

Definition send_slack (slack_webhook : option string)
    (post : string -> string -> string -> result Z) (message : string)
  : list event * result unit :=
  match webhook_set slack_webhook with
  | None => ([Print "⚠️ SLACK_WEBHOOK_URL が設定されていません"], Ok tt)
  | Some url =>
      match post url "text" message with
      | Raise e => ([Post url "text" message], Raise e)
      | Ok status_code =>
          ([Post url "text" message;
            Print (if (status_code =? 200)%Z
                   then "✅ Slack通知を送信しました"
                   else "❌ Slack通知失敗: " +:+ pretty status_code)],
           Ok tt)
      end
  end.

Definition send_discord (discord_webhook : option string)
    (post : string -> string -> string -> result Z) (message : string)
  : list event * result unit :=
  match webhook_set discord_webhook with
  | None => ([Print "⚠️ DISCORD_WEBHOOK_URL が設定されていません"], Ok tt)
  | Some url =>
      match post url "content" message with
      | Raise e => ([Post url "content" message], Raise e)
      | Ok status_code =>
          ([Post url "content" message;
            Print (if (status_code =? 204)%Z
                   then "✅ Discord通知を送信しました"
                   else "❌ Discord通知失敗: " +:+ pretty status_code)],
           Ok tt)
      end
  end.

Fixpoint repeat_string (s : string) (n : nat) : string :=
  match n with
  | O => ""
  | S n' => s +:+ repeat_string s n'
  end.

Definition notify (service : string) (slack_webhook discord_webhook : option string)
    (post : string -> string -> string -> result Z)
    (today : string) (fmt0 fmt1 : float -> string)
    (results : list SignalResult) : list event * result unit :=
  let message := format_message today fmt0 fmt1 results in
  let console :=
    [Print (nl +:+ repeat_string "=" 50); Print message;
     Print (repeat_string "=" 50 +:+ nl)] in
  let sent :=
    if String.eqb service "slack" then send_slack slack_webhook post message
    else if String.eqb service "discord"
    then send_discord discord_webhook post message
    else ([], Ok tt) in
  (console ++ sent.1, sent.2).

(** ** Notions used to state the properties *)

(** The running state of [roll_mean] describes the window that ends at
    position [i]: its size and the sum of the closes inside it. *)
Definition window_state (closes : list Q) (w i : nat) (st : Z * Q) : Prop :=
  st.1 = Z.of_nat (window_end i - window_start w i)
  /\ (st.2 == sumQ (slice closes (window_start w i) (window_end i)))%Q.

(** The mean of the [P] closes that end at position [i], by index. *)
Fixpoint sum_closes (closes : list Q) (lo n : nat) : Q :=
  match n with
  | O => 0
  | S n' => nth lo closes 0 + sum_closes closes (S lo) n'
  end%Q.

Definition mean_of_window (closes : list Q) (i P : nat) : Q :=
  (sum_closes closes (i + 1 - P) P / inject_Z (Z.of_nat P))%Q.

(** The traded value of each bar and its mean over the trailing 30 bars. *)
Definition traded_values (series : list PricePoint) : list Q :=
  map (fun p => close p * inject_Z (volume p))%Q series.

Definition avg_traded_value (series : list PricePoint) : Q :=
  let recent := tail 30 (traded_values series) in
  (sumQ recent / inject_Z (Z.of_nat (length recent)))%Q.

(** The moving average of the closes, and the last value of a column. *)
Definition ma (series : list PricePoint) (P : nat) : list float :=
  rolling_mean (column close series) P.

Definition latest (c : list float) : float := default NaN (last c).

(** The frame once the traded value, and then the three averages, have been
    stored into it. *)
Definition with_traded_value (series : list PricePoint) : DataFrame :=
  setitem (history series) "Volume_Yen" (map Some (traded_values series)).

Definition with_averages (series : list PricePoint) : DataFrame :=
  setitem (setitem (setitem (with_traded_value series)
    "MA50" (ma series 50)) "MA100" (ma series 100)) "MA200" (ma series 200).

(** The verdicts of the trend test and of the golden cross, read as plain
    booleans (an exception would count as "no"). *)
Definition flag (r : result bool) : bool :=
  match r with
  | Ok b => b
  | Raise _ => false
  end.

Definition bottom_flag (series : list PricePoint) : bool :=
  check_bottom_cross_ma200 (latest (column low series))
    (latest (column close series)) (latest (ma series 200)).

Definition golden_flag (series : list PricePoint) : bool :=
  flag (check_golden_cross (ma series 50) (ma series 100)).

Definition trend_flag (lstsq : Solver) (series : list PricePoint) : bool :=
  flag (is_ma_trending_up lstsq (ma series 200) 5).

(** The squared error of the line [a * x + b] on the points [(x_i, y_i)],
    and what it means for a line to be a least-squares fit. *)
Definition sq_error (a b : Q) (x y : list Q) : Q :=
  sumQ (zip_with (fun xi yi => (a * xi + b - yi) * (a * xi + b - yi))%Q x y).

Definition least_squares_line (x y : list Q) (a b : Q) : Prop :=
  forall a' b' : Q, (sq_error a b x y <= sq_error a' b' x y)%Q.

(** The closed form of the least-squares slope through [(x_i, y_i)]; the
    solver of exact arithmetic, which returns it, and a solver that is off
    by [noise]. *)
Definition ols_slope (x y : list Q) : Q :=
  let n := inject_Z (Z.of_nat (length x)) in
  ((n * dot x y - sumQ x * sumQ y) / (n * dot x x - sumQ x * sumQ x))%Q.

Definition exact_solver : Solver :=
  fun x y => Some (ols_slope x y).

Definition noisy_solver (noise : Q) : Solver :=
  fun x y => Some (ols_slope x y + noise)%Q.

(** The slope the solver returns for the values [ys] taken against
    0 .. lookback - 1. *)
Definition computed_slope (lstsq : Solver) (lookback : Z) (ys : list Q)
  : float :=
  lstsq (canonical (arange lookback)) (canonical ys).

(** The number of defined values at the end of a series. *)
Fixpoint leading_defined (l : list float) : nat :=
  match l with
  | Some _ :: rest => S (leading_defined rest)
  | _ => 0
  end.

Definition trailing_defined (ma : list float) : nat :=
  leading_defined (reverse ma).

(** What [screen_stock] reports for a series that passes every test. *)
Definition latest_date (series : list PricePoint) : string :=
  default "" (last (map date series)).

Definition signal_result (info : result (gmap string string))
    (code name : string) (series : list PricePoint) : SignalResult :=
  {| r_code := code;
     r_name := resolve_name info code name;
     r_price := latest (column close series);
     r_ma200_trend := "上昇";
     r_bottom_cross := if bottom_flag series then "✅" else "—";
     r_golden_cross := if golden_flag series then "✅" else "—";
     r_avg_volume_30d := Some (avg_traded_value series);
     r_risk_tag := risk_tag (Some (avg_traded_value series));
     r_date := latest_date series |}.

(** Two sample series.  [rising_bars n]: closes climbing by one from 100,
    lows at 50, 150,000 shares a day.  [falling_bars n]: closes falling by
    one from [n]. *)
Definition rising_bars (n : nat) : list PricePoint :=
  map (fun k => {| date := pretty k;
                   open := inject_Z (Z.of_nat k + 100);
                   high := inject_Z (Z.of_nat k + 101);
                   low := 50;
                   close := inject_Z (Z.of_nat k + 100);
                   volume := 150000 |}) (seq 0 n).

(** A series whose 200-bar average is flat: the closes alternate between
    12 and 14, lows at 12, 1,000,000 shares a day. *)
Definition flat_average_bars (n : nat) : list PricePoint :=
  map (fun k => {| date := pretty k;
                   open := 13;
                   high := 14;
                   low := 12;
                   close := if Nat.even k then 12 else 14;
                   volume := 1000000 |}) (seq 0 n).

(** The backtest, said directly on the series: the position of a day, the
    bar a signal date is found at (the first bar of the day the text
    denotes), the close at a position, which signal dates are evaluated and
    which of those are wins. *)
Fixpoint index_of (dates : list string) (d : string) : option nat :=
  match dates with
  | [] => None
  | x :: rest => if String.eqb x d then Some 0 else S <$> index_of rest d
  end.

Definition close_at (series : list PricePoint) (k : Z) : option Q :=
  if (k <? 0)%Z then None else close <$> series !! Z.to_nat k.

Definition found_at (parse : Parser) (series : list PricePoint)
    (d : string) : option nat :=
  match parse d with
  | Some day => index_of (map date series) day
  | None => None
  end.

Definition evaluated (parse : Parser) (series : list PricePoint)
    (forward_days : Z) (d : string) : bool :=
  match found_at parse series d with
  | Some i => (Z.of_nat i + forward_days <? Z.of_nat (length series))%Z
  | None => false
  end.

Definition is_win (parse : Parser) (series : list PricePoint)
    (forward_days : Z) (d : string) : bool :=
  match found_at parse series d with
  | Some i =>
      match close_at series (Z.of_nat i + forward_days),
            close_at series (Z.of_nat i) with
      | Some exit_price, Some entry_price =>
          negb (Qle_bool exit_price entry_price)
      | _, _ => false
      end
  | None => false
  end.

(** A signal date the lookup can find: it reads as a day, and the day is a
    row label. *)
Definition known_date (parse : Parser) (data : DataFrame) (d : string)
  : bool :=
  match parse d with
  | Some day => bool_decide (day ∈ index data)
  | None => false
  end.

(** A parser that also reads a day written with slashes. *)
Definition dashes (s : string) : string :=
  string_of_list_ascii
    (map (fun c => if Ascii.eqb c "/" then "-"%char else c)
       (list_ascii_of_string s)).

Definition slash_parser : Parser := fun s => Some (dashes s).

Definition count_if (f : string -> bool) (l : list string) : Z :=
  Z.of_nat (length (List.filter f l)).

Definition falling_bars (n : nat) : list PricePoint :=
  map (fun k => {| date := pretty k;
                   open := inject_Z (Z.of_nat (n - k));
                   high := inject_Z (Z.of_nat (n - k));
                   low := inject_Z (Z.of_nat (n - k));
                   close := inject_Z (Z.of_nat (n - k));
                   volume := 150000 |}) (seq 0 n).

(** The running state of [roll_mean] on a series that may contain NaN: the
    number and the sum of the defined values inside the window. *)
Definition defined_window (values : list float) (w i : nat) : list Q :=
  omap id (slice values (window_start w i) (window_end i)).

Definition nan_window_state (values : list float) (w i : nat)
    (st : Z * Q) : Prop :=
  st.1 = Z.of_nat (length (defined_window values w i))
  /\ (st.2 == sumQ (defined_window values w i))%Q.

(** The numerator of the least-squares slope of [y] against
    [0 .. length y - 1], and the sum of the [y_k] weighted by their distance
    [length y - k] from the end. *)
Definition slope_numerator (y : list Q) : Q :=
  (inject_Z (Z.of_nat (length y)) * dot (arange (Z.of_nat (length y))) y
   - sumQ (arange (Z.of_nat (length y))) * sumQ y)%Q.

Definition lag_sum (y : list Q) : Q :=
  (inject_Z (Z.of_nat (length y)) * sumQ y
   - dot (arange (Z.of_nat (length y))) y)%Q.

(** Reasoning about the statements of [screen_stock] on any frame.  The
    columns the pipeline stores into are the derived ones; [preserves d0 d]
    says that [d] is [d0] up to those; [runs d0 c P] says that, started in
    such a frame, [c] ends in such a frame and, when it does not raise,
    returns a value satisfying [P]. *)
Definition derived_column (c : string) : bool :=
  String.eqb c "Volume_Yen" || String.eqb c "MA50"
  || String.eqb c "MA100" || String.eqb c "MA200".

Definition preserves (d0 d : DataFrame) : Prop :=
  index d = index d0
  /\ forall c, derived_column c = false -> columns d !! c = columns d0 !! c.

Definition runs {A} (d0 : DataFrame) (c : M A) (P : A -> Prop) : Prop :=
  forall d, preserves d0 d ->
    preserves d0 (c d).2
    /\ match (c d).1 with
       | Ok a => P a
       | Raise _ => True
       end.

(** A list of integers that climbs from each entry to the next. *)
Fixpoint ascending (l : list Z) : bool :=
  match l with
  | x :: (y :: _) as rest => (x <? y)%Z && ascending rest
  | _ => true
  end.

(** The requests among the events of a run. *)
Definition posts (events : list event) : list event :=
  List.filter (fun e => match e with Post _ _ _ => true | Print _ => false end)
    events.

(** * Properties *)

(** ** Comparisons on floats *)

Lemma flt_Some (x y : Q) : flt (Some x) (Some y) = true <-> (x < y)%Q.
Proof.
  unfold flt. rewrite negb_true_iff, <- not_true_iff_false, Qle_bool_iff.
  split; [apply Qnot_le_lt | apply Qlt_not_le].
Qed.

Lemma fle_Some (x y : Q) : fle (Some x) (Some y) = true <-> (x <= y)%Q.
Proof. apply Qle_bool_iff. Qed.

Lemma flt_Some_false (x y : Q) : flt (Some x) (Some y) = false <-> (y <= x)%Q.
Proof.
  unfold flt. rewrite negb_false_iff. apply Qle_bool_iff.
Qed.

Lemma fle_Some_false (x y : Q) : fle (Some x) (Some y) = false <-> (y < x)%Q.
Proof.
  unfold fle. rewrite <- not_true_iff_false, Qle_bool_iff.
  split; [apply Qnot_le_lt | apply Qlt_not_le].
Qed.

(** ** Sums and slices *)

Lemma fold_Qplus_acc (qs : list Q) (s : Q) :
  (fold_left Qplus qs s == s + sumQ qs)%Q.
Proof.
  unfold sumQ. revert s. induction qs as [|a qs IH]; intros s; simpl.
  - lra.
  - pose proof (IH (s + a)%Q). pose proof (IH (0 + a)%Q). lra.
Qed.

Lemma fold_Qminus_acc (qs : list Q) (s : Q) :
  (fold_left Qminus qs s == s - sumQ qs)%Q.
Proof.
  unfold sumQ. revert s. induction qs as [|a qs IH]; intros s; simpl.
  - lra.
  - pose proof (IH (s - a)%Q). pose proof (fold_Qplus_acc qs (0 + a)%Q).
    unfold sumQ in *. lra.
Qed.

Lemma sumQ_cons (a : Q) (qs : list Q) : (sumQ (a :: qs) == a + sumQ qs)%Q.
Proof.
  unfold sumQ at 1. simpl. pose proof (fold_Qplus_acc qs (0 + a)%Q). lra.
Qed.

Lemma sumQ_app (a b : list Q) : (sumQ (a ++ b) == sumQ a + sumQ b)%Q.
Proof.
  induction a as [|x a IH]; simpl.
  - unfold sumQ at 2. simpl. lra.
  - rewrite !sumQ_cons. lra.
Qed.

Lemma slice_fmap {A B} (f : A -> B) (l : list A) (s e : nat) :
  slice (map f l) s e = map f (slice l s e).
Proof. unfold slice. by rewrite <- fmap_drop, <- fmap_take. Qed.

Lemma slice_length {A} (l : list A) (s e : nat) :
  e <= length l -> length (slice l s e) = e - s.
Proof. intros H. unfold slice. rewrite length_take, length_drop. lia. Qed.

Lemma slice_split {A} (l : list A) (s m e : nat) :
  s <= m <= e -> slice l s e = slice l s m ++ slice l m e.
Proof.
  intros H. unfold slice.
  replace (e - s) with ((m - s) + (e - m)) by lia.
  rewrite <- take_take_drop, drop_drop.
  by replace (s + (m - s)) with m by lia.
Qed.

Lemma slice_nil {A} (l : list A) (s : nat) : slice l s s = [].
Proof. unfold slice. by rewrite Nat.sub_diag. Qed.

Lemma sumQ_slice_split (l : list Q) (s m e : nat) :
  s <= m <= e ->
  (sumQ (slice l s e) == sumQ (slice l s m) + sumQ (slice l m e))%Q.
Proof. intros H. rewrite (slice_split l s m e H). apply sumQ_app. Qed.

(** ** The running window of [roll_mean] on NaN-free input *)

Lemma fold_add_mean_defined (qs : list Q) (st : Z * Q) :
  fold_left add_mean (map Some qs) st
  = ((st.1 + Z.of_nat (length qs))%Z, fold_left Qplus qs st.2).
Proof.
  revert st. induction qs as [|a qs IH]; intros [n s]; simpl.
  - f_equal. lia.
  - rewrite IH. simpl. f_equal. lia.
Qed.

Lemma fold_remove_mean_defined (qs : list Q) (st : Z * Q) :
  fold_left remove_mean (map Some qs) st
  = ((st.1 - Z.of_nat (length qs))%Z, fold_left Qminus qs st.2).
Proof.
  revert st. induction qs as [|a qs IH]; intros [n s]; simpl.
  - f_equal. lia.
  - rewrite IH. simpl. f_equal. lia.
Qed.

Section RollingWindow.
Variable closes : list Q.
Variable w : nat.

Lemma roll_step_window (st : Z * Q) (i : nat) :
  i < length closes ->
  (i = 0 \/ window_state closes w (i - 1) st) ->
  window_state closes w i (roll_step (map Some closes) w st i).
Proof.
  intros Hi Hprev.
  unfold window_state, roll_step, window_end, window_start in *.
  destruct ((i =? 0)%nat || (i - 1 + 1 <=? i + 1 - w)%nat) eqn:Hsetup.
  - rewrite slice_fmap, fold_add_mean_defined. split; simpl.
    + rewrite slice_length by lia. lia.
    + pose proof (fold_Qplus_acc (slice closes (i + 1 - w) (i + 1)) 0). lra.
  - apply orb_false_iff in Hsetup as [Hi0 Hov].
    apply Nat.eqb_neq in Hi0. apply Nat.leb_gt in Hov.
    destruct Hprev as [?|[Hn Hs]]; [lia|].
    rewrite !slice_fmap, fold_remove_mean_defined, fold_add_mean_defined.
    split; simpl.
    + rewrite !slice_length by lia. lia.
    + set (s0 := i - 1 + 1 - w) in *. set (s1 := i + 1 - w) in *.
      pose proof (fold_Qplus_acc (slice closes (i - 1 + 1) (i + 1))
        (fold_left Qminus (slice closes s0 s1) st.2)) as H1.
      pose proof (fold_Qminus_acc (slice closes s0 s1) st.2) as H2.
      pose proof (sumQ_slice_split closes s0 s1 (i - 1 + 1)
        ltac:(subst s0 s1; lia)) as H3.
      pose proof (sumQ_slice_split closes s1 (i - 1 + 1) (i + 1)
        ltac:(subst s0 s1; lia)) as H4.
      lra.
Qed.

Lemma roll_mean_from_length (values : list float) (minp : Z) (st : Z * Q)
    (i n : nat) :
  length (roll_mean_from values w minp st i n) = n.
Proof.
  revert st i. induction n as [|n IH]; intros st i; simpl; [done|].
  by rewrite IH.
Qed.

Lemma roll_mean_from_window (minp : Z) (n : nat) :
  forall (st : Z * Q) (i k : nat),
    i + n = length closes ->
    (i = 0 \/ window_state closes w (i - 1) st) ->
    k < n ->
    exists st',
      roll_mean_from (map Some closes) w minp st i n !! k
      = Some (calc_mean minp st')
      /\ window_state closes w (i + k) st'.
Proof.
  induction n as [|n IH]; intros st i k Hlen Hprev Hk; [lia|].
  pose proof (roll_step_window st i ltac:(lia) Hprev) as Hstep.
  destruct k as [|k]; simpl.
  - eexists. split; [reflexivity|]. by rewrite Nat.add_0_r.
  - destruct (IH (roll_step (map Some closes) w st i) (S i) k) as (st' & ? & ?).
    + lia.
    + right. by replace (S i - 1) with i by lia.
    + lia.
    + exists st'. split; [done|]. by replace (i + S k) with (S i + k) by lia.
Qed.
End RollingWindow.

Lemma sumQ_slice_index (l : list Q) (n lo : nat) :
  lo + n <= length l ->
  (sumQ (slice l lo (lo + n)) == sum_closes l lo n)%Q.
Proof.
  revert lo. induction n as [|n IH]; intros lo Hlen; simpl.
  - rewrite Nat.add_0_r, slice_nil. reflexivity.
  - rewrite (sumQ_slice_split l lo (S lo) (lo + S n)) by lia.
    replace (lo + S n) with (S lo + n) by lia.
    rewrite (IH (S lo)) by lia.
    destruct (lookup_lt_is_Some_2 l lo ltac:(lia)) as [x Hx].
    unfold slice. replace (S lo - lo) with 1 by lia.
    rewrite (drop_S _ _ _ Hx), (nth_lookup_Some _ _ _ _ Hx). simpl.
    unfold sumQ at 1. simpl. lra.
Qed.

(** ** MovingAverageEngine *)

Lemma rolling_mean_length (values : list float) (w : nat) :
  length (rolling_mean values w) = length values.
Proof. apply roll_mean_from_length. Qed.

(** Position [i] of the average over NaN-free closes: NaN while the window
    is not full, the mean of the trailing [w] closes from then on. *)
Lemma rolling_mean_lookup (closes : list Q) (w i : nat) :
  1 <= w -> i < length closes ->
  (i + 1 < w -> rolling_mean (map Some closes) w !! i = Some NaN)
  /\ (w <= i + 1 ->
      exists m, rolling_mean (map Some closes) w !! i = Some (Some m)
                /\ (m == mean_of_window closes i w)%Q).
Proof.
  intros Hw Hi. unfold rolling_mean, roll_mean. rewrite length_map.
  destruct (roll_mean_from_window closes w (Z.of_nat w) (length closes)
              (0%Z, 0%Q) 0 i) as (st & Hst & Hn & Hs); [lia|by left|lia|].
  change (0 + i) with i in *.
  unfold window_end, window_start in *. simpl in Hn, Hs.
  split; intros Hfull; rewrite Hst; unfold calc_mean.
  - replace (Z.of_nat w <=? st.1)%Z with false; [done|].
    symmetry. apply Z.leb_gt. lia.
  - replace (Z.of_nat w <=? st.1)%Z with true by (symmetry; apply Z.leb_le; lia).
    replace (0 <? st.1)%Z with true by (symmetry; apply Z.ltb_lt; lia).
    eexists. split; [reflexivity|].
    unfold mean_of_window.
    replace st.1 with (Z.of_nat w) by lia.
    rewrite Hs.
    replace (i + 1) with (i + 1 - w + w) at 2 by lia.
    rewrite sumQ_slice_index by lia. reflexivity.
Qed.

(** C2: for a window length [P] with [1 <= P <= length closes],
    [calculate_ma] returns a series as long as its input whose first
    [P - 1] entries, and only those, are NaN (the "not yet available"
    state), and whose entry [i >= P - 1] is the arithmetic mean of the
    closes at positions [i - P + 1 .. i]. *)
Theorem calculate_ma_window_mean (closes : list Q) (P : Z) :
  (1 <= P <= Z.of_nat (length closes))%Z ->
  exists ma,
    calculate_ma (map Some closes) P = Ok ma
    /\ length ma = length closes
    /\ forall i : nat, i < length closes ->
         ((Z.of_nat i < P - 1)%Z -> ma !! i = Some NaN)
         /\ ((P - 1 <= Z.of_nat i)%Z ->
             exists m, ma !! i = Some (Some m)
                       /\ (m == mean_of_window closes i (Z.to_nat P))%Q).
Proof.
  intros [Hlo Hhi]. unfold calculate_ma.
  replace (P <? 0)%Z with false by (symmetry; apply Z.ltb_ge; lia).
  eexists. split; [reflexivity|]. split.
  - by rewrite rolling_mean_length, length_map.
  - intros i Hi.
    destruct (rolling_mean_lookup closes (Z.to_nat P) i ltac:(lia) Hi)
      as [Hnan Hmean].
    split; intros H; [apply Hnan|apply Hmean]; lia.
Qed.

Lemma calculate_ma_window_mean_witness :
  exists ma,
    calculate_ma (map Some [1; 2; 3; 4; 5]%Q) 2 = Ok ma
    /\ length ma = 5
    /\ forall i : nat, i < 5 ->
         ((Z.of_nat i < 2 - 1)%Z -> ma !! i = Some NaN)
         /\ ((2 - 1 <= Z.of_nat i)%Z ->
             exists m, ma !! i = Some (Some m)
                       /\ (m == mean_of_window [1; 2; 3; 4; 5]%Q i 2)%Q).
Proof.
  apply (calculate_ma_window_mean [1; 2; 3; 4; 5]%Q 2). simpl. lia.
Defined.

Lemma roll_mean_from_zero_window (values : list float) (n : nat) :
  forall (st : Z * Q) (i : nat),
    roll_mean_from values 0 0 st i n = repeat NaN n.
Proof.
  induction n as [|n IH]; intros st i; simpl; [done|].
  rewrite IH. f_equal.
  unfold roll_step, window_start, window_end.
  replace ((i =? 0)%nat || (i - 1 + 1 <=? i + 1 - 0)%nat) with true.
  - replace (i + 1 - 0) with (i + 1) by lia. by rewrite slice_nil.
  - symmetry. apply orb_true_iff. destruct i; [by left|right].
    apply Nat.leb_le. lia.
Qed.

(** C8, as the code has it: a negative window length is refused with a
    ValueError; a window length of 0 is accepted and gives a series of the
    input's length in which every entry is NaN. *)
Theorem calculate_ma_nonpositive_period (prices : list float) (period : Z) :
  (period <= 0)%Z ->
  calculate_ma prices period
  = if (period <? 0)%Z then Raise ValueError
    else Ok (repeat NaN (length prices)).
Proof.
  intros Hp. unfold calculate_ma. destruct (period <? 0)%Z eqn:Hneg; [done|].
  apply Z.ltb_ge in Hneg. replace period with 0%Z by lia.
  unfold rolling_mean, roll_mean. simpl.
  by rewrite roll_mean_from_zero_window.
Qed.

Lemma calculate_ma_nonpositive_period_witness :
  calculate_ma [Some 1%Q; Some 2%Q] (-3) = Raise ValueError.
Proof.
  apply (calculate_ma_nonpositive_period [Some 1%Q; Some 2%Q] (-3)). lia.
Defined.

(** C8 fails at period 0: no error is raised, a series comes back. *)
Lemma calculate_ma_zero_period_returns :
  calculate_ma [Some 1%Q; Some 2%Q; Some 3%Q] 0 = Ok [NaN; NaN; NaN].
Proof. reflexivity. Qed.

(** ** CrossDetector *)

(** C5: on real numbers, [check_bottom_cross_ma200] is true exactly when
    [low <= ma200] and [close > ma200]; a close equal to the average gives
    false. *)
Theorem check_bottom_cross_ma200_iff (low close ma200 : Q) :
  (check_bottom_cross_ma200 (Some low) (Some close) (Some ma200) = true
   <-> (low <= ma200 /\ ma200 < close)%Q)
  /\ check_bottom_cross_ma200 (Some low) (Some ma200) (Some ma200) = false.
Proof.
  unfold check_bottom_cross_ma200. split.
  - by rewrite andb_true_iff, fle_Some, flt_Some.
  - apply andb_false_iff. right. apply flt_Some_false. lra.
Qed.

Lemma iloc_from_end {A} (pre suf : list A) (k : nat) (a : A) :
  suf !! (length suf - k) = Some a -> 1 <= k <= length suf ->
  iloc (pre ++ suf) (- Z.of_nat k) = Ok a.
Proof.
  intros Ha Hk. unfold iloc. rewrite length_app.
  replace (- Z.of_nat k <? 0)%Z with true by (symmetry; apply Z.ltb_lt; lia).
  set (p := (Z.of_nat (length pre + length suf) + - Z.of_nat k)%Z).
  replace ((p <? 0)%Z || (Z.of_nat (length pre + length suf) <=? p)%Z)
    with false.
  - replace (Z.to_nat p) with (length pre + (length suf - k)) by lia.
    by rewrite lookup_app_r, Nat.add_comm, Nat.add_sub, Ha by lia.
  - symmetry. apply orb_false_iff. split; [apply Z.ltb_ge|apply Z.leb_gt]; lia.
Qed.

(** C4: when both averages end in two defined values, [check_golden_cross]
    returns true exactly when the previous short value is strictly below
    the previous long value and the current short value is at or above the
    current long value; a short average that was already at or above the
    long one on the previous day gives false whatever the current pair. *)
Theorem check_golden_cross_iff (ma_short ma_long : list float)
    (prev_short curr_short prev_long curr_long : Q) :
  exists b,
    check_golden_cross (ma_short ++ [Some prev_short; Some curr_short])
                       (ma_long ++ [Some prev_long; Some curr_long]) = Ok b
    /\ (b = true <-> (prev_short < prev_long /\ curr_long <= curr_short)%Q)
    /\ ((prev_long <= prev_short)%Q -> b = false).
Proof.
  unfold check_golden_cross. rewrite !length_app. simpl length.
  replace (length ma_short + 2 <? 2)%nat with false
    by (symmetry; apply Nat.ltb_ge; lia).
  replace (length ma_long + 2 <? 2)%nat with false
    by (symmetry; apply Nat.ltb_ge; lia).
  simpl orb. cbv iota.
  rewrite (iloc_from_end ma_short _ 2 (Some prev_short)) by (simpl; done || lia).
  rewrite (iloc_from_end ma_long _ 2 (Some prev_long)) by (simpl; done || lia).
  rewrite (iloc_from_end ma_short _ 1 (Some curr_short)) by (simpl; done || lia).
  rewrite (iloc_from_end ma_long _ 1 (Some curr_long)) by (simpl; done || lia).
  cbn [rbind]. eexists. split; [reflexivity|]. split.
  - unfold fge. by rewrite andb_true_iff, flt_Some, fle_Some.
  - intros H. apply andb_false_iff. left. by apply flt_Some_false.
Qed.

(** ** LiquidityClassifier *)

Lemma risk_tag_ladder (v : Q) :
  (risk_tag (Some v) = "🟢安定" <-> (inject_Z 100000000 <= v)%Q)
  /\ (risk_tag (Some v) = "🟡標準"
      <-> (inject_Z 10000000 <= v /\ v < inject_Z 100000000)%Q)
  /\ (risk_tag (Some v) = "🔴冒険" <-> (v < inject_Z 10000000)%Q).
Proof.
  unfold risk_tag, fge, of_int.
  assert (inject_Z 10000000 < inject_Z 100000000)%Q as Hlt by reflexivity.
  destruct (fle (Some (inject_Z 100000000)) (Some v)) eqn:H1;
    [apply fle_Some in H1|apply fle_Some_false in H1];
    (destruct (fle (Some (inject_Z 10000000)) (Some v)) eqn:H2;
      [apply fle_Some in H2|apply fle_Some_false in H2]);
    repeat split; intros; try done; try lra.
Qed.

(** ** The frame of a price series *)

Lemma getitem_setitem (data : DataFrame) (k k' : string) (c : list float) :
  getitem (setitem data k c) k'
  = if String.eqb k k' then Ok c else getitem data k'.
Proof.
  unfold getitem, setitem. simpl.
  destruct (String.eqb_spec k k') as [->|Hne].
  - by rewrite lookup_insert_eq.
  - by rewrite lookup_insert_ne.
Qed.

Lemma getitem_history_Close (series : list PricePoint) :
  getitem (history series) "Close" = Ok (column close series).
Proof. reflexivity. Qed.

Lemma getitem_history_Low (series : list PricePoint) :
  getitem (history series) "Low" = Ok (column low series).
Proof. reflexivity. Qed.

Lemma getitem_history_Volume (series : list PricePoint) :
  getitem (history series) "Volume"
  = Ok (column (fun p => inject_Z (volume p)) series).
Proof. reflexivity. Qed.

Lemma len_history (series : list PricePoint) :
  len (history series) = Z.of_nat (length series).
Proof. unfold len, history. simpl. by rewrite length_map. Qed.

Lemma empty_history (series : list PricePoint) :
  empty (history series) = (length series =? 0)%nat.
Proof.
  unfold empty. simpl index. rewrite length_map.
  replace (size (columns (history series))) with 5 by (by vm_compute).
  apply orb_false_r.
Qed.

(** ** Least squares *)

Lemma dot_cons (a b : Q) (x y : list Q) :
  (dot (a :: x) (b :: y) == a * b + dot x y)%Q.
Proof. unfold dot. simpl. apply sumQ_cons. Qed.

Lemma inject_Z_S (n : nat) :
  (inject_Z (Z.of_nat (S n)) == inject_Z (Z.of_nat n) + 1)%Q.
Proof. rewrite Nat2Z.inj_succ. unfold Z.succ. by rewrite inject_Z_plus. Qed.

Lemma sq_error_expand (a b : Q) (x : list Q) :
  forall y : list Q,
    length x = length y ->
    (sq_error a b x y
     == a * a * dot x x + 2 * a * b * sumQ x
        + b * b * inject_Z (Z.of_nat (length x))
        - 2 * a * dot x y - 2 * b * sumQ y + dot y y)%Q.
Proof.
  induction x as [|xi x IH]; intros [|yi y] Hlen; try discriminate.
  - unfold sq_error, dot, sumQ. simpl. ring.
  - injection Hlen as Hlen. specialize (IH y Hlen).
    unfold sq_error in *. simpl zip_with. simpl length.
    rewrite sumQ_cons, IH, !dot_cons, !sumQ_cons, inject_Z_S. ring.
Qed.

Lemma gap_nonneg (X d D n p q : Q) :
  (0 < D -> 0 < n -> n * (p - q) == X * X + d * d * D -> q <= p)%Q.
Proof. intros. nra. Qed.

Lemma gap_zero (X a a0 D n p q : Q) :
  (0 < D -> 0 < n ->
   n * (p - q) == X * X + (a - a0) * (a - a0) * D -> p <= q -> a == a0)%Q.
Proof.
  intros HD Hn Hgap Hle.
  assert (a - a0 == 0)%Q as Hd; [|lra].
  revert Hgap. generalize (a - a0)%Q. intros d Hgap.
  assert (0 <= X * X)%Q by nra. assert (0 <= d * d)%Q by nra.
  assert (d * d * D <= 0)%Q by nra. assert (d * d <= 0)%Q by nra. nra.
Qed.

Section LeastSquares.
Variables x y : list Q.
Hypothesis Hlen : length x = length y.

Let n : Q := inject_Z (Z.of_nat (length x)).
Let D : Q := (n * dot x x - sumQ x * sumQ x)%Q.

Hypothesis Hn : (0 < n)%Q.
Hypothesis HD : (0 < D)%Q.

Let a0 : Q := ols_slope x y.
Let b0 : Q := ((sumQ y - a0 * sumQ x) / n)%Q.

Lemma sq_error_gap (a b : Q) :
  (n * (sq_error a b x y - sq_error a0 b0 x y)
   == (n * (b - b0) + sumQ x * (a - a0)) * (n * (b - b0) + sumQ x * (a - a0))
      + (a - a0) * (a - a0) * D)%Q.
Proof.
  rewrite !sq_error_expand by done.
  subst b0 a0. unfold ols_slope. fold n. subst D.
  field. split; [apply Qnot_eq_sym, Qlt_not_eq, HD|apply Qnot_eq_sym, Qlt_not_eq, Hn].
Qed.

Lemma ols_slope_least_squares : least_squares_line x y a0 b0.
Proof.
  intros a b. exact (gap_nonneg _ _ _ _ _ _ HD Hn (sq_error_gap a b)).
Qed.

Lemma least_squares_slope_unique (a b : Q) :
  least_squares_line x y a b -> (a == a0)%Q.
Proof.
  intros Hmin.
  exact (gap_zero _ _ _ _ _ _ _ HD Hn (sq_error_gap a b) (Hmin a0 b0)).
Qed.
End LeastSquares.

(** ** The abscissae [0, 1, ..., n - 1] *)

Lemma arange_S (n : nat) :
  arange (Z.of_nat (S n)) = arange (Z.of_nat n) ++ [inject_Z (Z.of_nat n)].
Proof.
  unfold arange. rewrite !Nat2Z.id, seq_S, map_app. reflexivity.
Qed.

Lemma arange_length (n : Z) : length (arange n) = Z.to_nat n.
Proof. unfold arange. by rewrite length_map, length_seq. Qed.

Lemma dot_snoc (x y : list Q) (a b : Q) :
  length x = length y ->
  (dot (x ++ [a]) (y ++ [b]) == dot x y + a * b)%Q.
Proof.
  intros Hlen. unfold dot. rewrite zip_with_app by done.
  rewrite sumQ_app. simpl. unfold sumQ at 2. simpl. lra.
Qed.

Lemma sumQ_snoc (x : list Q) (a : Q) : (sumQ (x ++ [a]) == sumQ x + a)%Q.
Proof. rewrite sumQ_app. unfold sumQ at 2. simpl. lra. Qed.

Lemma sumQ_arange (n : nat) :
  (2 * sumQ (arange (Z.of_nat n))
   == inject_Z (Z.of_nat n) * (inject_Z (Z.of_nat n) - 1))%Q.
Proof.
  induction n as [|n IH].
  - reflexivity.
  - rewrite arange_S, sumQ_snoc, inject_Z_S.
    revert IH. generalize (sumQ (arange (Z.of_nat n))) (inject_Z (Z.of_nat n)).
    intros s N IH. nra.
Qed.

Lemma dot_arange (n : nat) :
  (6 * dot (arange (Z.of_nat n)) (arange (Z.of_nat n))
   == (inject_Z (Z.of_nat n) - 1) * inject_Z (Z.of_nat n)
      * (2 * inject_Z (Z.of_nat n) - 1))%Q.
Proof.
  induction n as [|n IH].
  - reflexivity.
  - rewrite arange_S, dot_snoc, inject_Z_S by done.
    revert IH.
    generalize (dot (arange (Z.of_nat n)) (arange (Z.of_nat n)))
      (inject_Z (Z.of_nat n)).
    intros s N IH.
    assert (6 * (s + N * N) == 6 * s + 6 * (N * N))%Q as -> by ring.
    rewrite IH. ring.
Qed.

(** Two or more distinct abscissae determine the fit: the determinant of the
    normal equations is positive. *)
Lemma arange_determinant (n : nat) :
  2 <= n ->
  (0 < inject_Z (Z.of_nat n) * dot (arange (Z.of_nat n)) (arange (Z.of_nat n))
       - sumQ (arange (Z.of_nat n)) * sumQ (arange (Z.of_nat n)))%Q.
Proof.
  intros Hn.
  pose proof (sumQ_arange n) as H1. pose proof (dot_arange n) as H2.
  assert (2 <= inject_Z (Z.of_nat n))%Q as HN.
  { change 2%Q with (inject_Z 2). rewrite <- Zle_Qle. lia. }
  revert H1 H2 HN.
  generalize (dot (arange (Z.of_nat n)) (arange (Z.of_nat n)))
    (sumQ (arange (Z.of_nat n))) (inject_Z (Z.of_nat n)).
  intros s2 s1 N H1 H2 HN.
  assert (12 * (N * s2 - s1 * s1) == N * N * (N - 1) * (N + 1))%Q as H12.
  { assert (12 * (N * s2 - s1 * s1)
            == 2 * N * (6 * s2) - 3 * ((2 * s1) * (2 * s1)))%Q as -> by ring.
    rewrite H1, H2. ring. }
  assert (0 < N * N * (N - 1) * (N + 1))%Q as Hpos.
  { repeat apply Qmult_lt_0_compat; lra. }
  lra.
Qed.

Lemma arange_dot_positive (n : nat) :
  2 <= n -> (0 < dot (arange (Z.of_nat n)) (arange (Z.of_nat n)))%Q.
Proof.
  intros Hn. pose proof (dot_arange n) as H2.
  assert (2 <= inject_Z (Z.of_nat n))%Q as HN.
  { change 2%Q with (inject_Z 2). rewrite <- Zle_Qle. lia. }
  revert H2 HN.
  generalize (dot (arange (Z.of_nat n)) (arange (Z.of_nat n)))
    (inject_Z (Z.of_nat n)).
  intros s2 N H2 HN.
  assert (0 < (N - 1) * N * (2 * N - 1))%Q as Hpos.
  { repeat apply Qmult_lt_0_compat; lra. }
  lra.
Qed.

(** ** TrendDetector *)

Lemma polyfit1_slope_arange (lstsq : Solver) (n : Z) (y : list float) :
  (2 <= n)%Z -> length y = Z.to_nat n ->
  polyfit1_slope lstsq (arange n) y
  = match mapM id y with
    | None => Ok NaN
    | Some ys => Ok (computed_slope lstsq n ys)
    end.
Proof.
  intros Hn Hy.
  pose proof (arange_length n) as Hx.
  pose proof (arange_dot_positive (Z.to_nat n) ltac:(lia)) as Hpos.
  rewrite Z2Nat.id in Hpos by lia.
  unfold polyfit1_slope, computed_slope.
  destruct (arange n) as [|x0 x] eqn:Ex; [simpl in Hx; lia|].
  rewrite Hx, Hy, Nat.eqb_refl. cbn [negb].
  destruct (Qeq_bool (dot (x0 :: x) (x0 :: x)) 0) eqn:Ez; [|done].
  apply Qeq_bool_iff in Ez. lra.
Qed.

Lemma iloc_from_tail {A} (l : list A) (k : Z) :
  (0 < k <= Z.of_nat (length l))%Z -> iloc_from l (- k) = tail (Z.to_nat k) l.
Proof.
  intros Hk. unfold iloc_from, tail.
  replace (- k <? 0)%Z with true by (symmetry; apply Z.ltb_lt; lia).
  f_equal. lia.
Qed.

Lemma tail_length {A} (l : list A) (n : nat) :
  n <= length l -> length (tail n l) = n.
Proof. intros H. unfold tail. rewrite length_drop. lia. Qed.

(** With a lookback of two or more and enough entries, the verdict is read
    off the last [lookback] entries. *)
Lemma is_ma_trending_up_recent (lstsq : Solver) (ma : list float)
    (lookback : Z) :
  (2 <= lookback <= Z.of_nat (length ma))%Z ->
  is_ma_trending_up lstsq ma lookback
  = match mapM id (tail (Z.to_nat lookback) ma) with
    | None => Ok false
    | Some ys => Ok (fgt (computed_slope lstsq lookback ys) (of_int 0))
    end.
Proof.
  intros Hk. unfold is_ma_trending_up.
  replace (Z.of_nat (length ma) <? lookback)%Z with false
    by (symmetry; apply Z.ltb_ge; lia).
  rewrite iloc_from_tail by lia.
  rewrite polyfit1_slope_arange by (try apply tail_length; lia).
  by destruct (mapM id (tail (Z.to_nat lookback) ma)).
Qed.

Lemma leading_defined_take (l : list float) (k : nat) :
  k <= leading_defined l -> exists ys, take k l = map Some ys.
Proof.
  revert k. induction l as [|[v|] l IH]; intros [|k] Hk; simpl in *;
    try (by exists []); try lia.
  destruct (IH k ltac:(lia)) as [ys Hys]. exists (v :: ys). simpl. by f_equal.
Qed.

Lemma leading_defined_gap (l : list float) (k : nat) :
  leading_defined l < k <= length l -> NaN ∈ take k l.
Proof.
  revert k. induction l as [|[v|] l IH]; intros [|k] Hk; simpl in *; try lia.
  - apply elem_of_cons. right. apply IH. lia.
  - apply elem_of_cons. by left.
Qed.

Lemma tail_reverse {A} (l : list A) (n : nat) :
  tail n l = reverse (take n (reverse l)).
Proof.
  unfold tail. by rewrite reverse_take, length_reverse, reverse_involutive.
Qed.

Lemma trailing_defined_tail (ma : list float) (k : nat) :
  k <= trailing_defined ma -> exists ys, tail k ma = map Some ys.
Proof.
  intros Hk. destruct (leading_defined_take _ _ Hk) as [ys Hys].
  exists (reverse ys). rewrite tail_reverse, Hys.
  symmetry. apply (fmap_reverse Some).
Qed.

Lemma trailing_defined_gap (ma : list float) (k : nat) :
  trailing_defined ma < k <= length ma -> mapM id (tail k ma) = None.
Proof.
  intros Hk. apply mapM_None_2, Exists_exists. exists NaN. split; [|done].
  rewrite tail_reverse. apply elem_of_reverse, leading_defined_gap.
  by rewrite length_reverse.
Qed.

Lemma mapM_id_Some (ys : list Q) : mapM id (map Some ys) = Some ys.
Proof. by apply (mapM_fmap_Some id Some). Qed.

(** The least-squares slope of the last values, which exists and is unique
    as soon as there are two of them. *)
Lemma arange_least_squares (lookback : Z) (ys : list Q) :
  (2 <= lookback)%Z -> length ys = Z.to_nat lookback ->
  least_squares_line (arange lookback) ys
    (ols_slope (arange lookback) ys)
    ((sumQ ys - ols_slope (arange lookback) ys * sumQ (arange lookback))
     / inject_Z (Z.of_nat (length (arange lookback))))
  /\ forall a b, least_squares_line (arange lookback) ys a b ->
       (a == ols_slope (arange lookback) ys)%Q.
Proof.
  intros Hk Hlen.
  assert (length (arange lookback) = length ys) as Hxy
    by (by rewrite arange_length).
  assert (0 < inject_Z (Z.of_nat (length (arange lookback))))%Q as Hn.
  { rewrite arange_length. change 0%Q with (inject_Z 0).
    rewrite <- Zlt_Qlt. lia. }
  assert (0 < inject_Z (Z.of_nat (length (arange lookback)))
              * dot (arange lookback) (arange lookback)
              - sumQ (arange lookback) * sumQ (arange lookback))%Q as HD.
  { replace (arange lookback) with (arange (Z.of_nat (Z.to_nat lookback)))
      by (f_equal; lia).
    rewrite arange_length, Nat2Z.id. apply arange_determinant. lia. }
  split.
  - by apply ols_slope_least_squares.
  - intros a b Hmin. exact (least_squares_slope_unique _ _ Hxy Hn HD a b Hmin).
Qed.

Lemma trailing_defined_le (ma : list float) :
  trailing_defined ma <= length ma.
Proof.
  unfold trailing_defined. rewrite <- (length_reverse ma).
  generalize (reverse ma). intros l.
  induction l as [|[v|] l IH]; simpl; lia.
Qed.

(** The verdict when the solver's slope is within [err] of a number [a]
    that is further than [err] from 0. *)
Lemma fgt_within (slope a err : Q) :
  (a - err <= slope <= a + err)%Q ->
  ((err < a)%Q -> fgt (Some slope) (of_int 0) = true)
  /\ ((a < - err)%Q -> fgt (Some slope) (of_int 0) = false).
Proof.
  intros [Hlo Hhi]. unfold fgt, of_int. split; intros Ha.
  - apply flt_Some. change (inject_Z 0) with 0%Q. lra.
  - apply flt_Some_false. change (inject_Z 0) with 0%Q. lra.
Qed.

(** C3, for a lookback of two or more: with fewer than [lookback] defined
    values at the end of the series the answer is false, without error.
    Otherwise the last [lookback] values have one least-squares line against
    0 .. lookback - 1, of slope [a], and the answer is whether the slope the
    solver returns for them is strictly positive; when that slope is within
    [err] of [a], the answer is true if [a] is above [err] and false if [a]
    is below [- err].  Nothing is said of a slope [a] within the solver's
    error of 0. *)
Theorem is_ma_trending_up_least_squares (lstsq : Solver) (ma : list float)
    (lookback : Z) :
  (2 <= lookback)%Z ->
  ((Z.of_nat (trailing_defined ma) < lookback)%Z ->
     is_ma_trending_up lstsq ma lookback = Ok false)
  /\ ((lookback <= Z.of_nat (trailing_defined ma))%Z ->
      exists ys a b,
        tail (Z.to_nat lookback) ma = map Some ys
        /\ least_squares_line (arange lookback) ys a b
        /\ (forall a' b', least_squares_line (arange lookback) ys a' b' ->
              (a' == a)%Q)
        /\ is_ma_trending_up lstsq ma lookback
           = Ok (fgt (computed_slope lstsq lookback ys) (of_int 0))
        /\ forall slope err,
             computed_slope lstsq lookback ys = Some slope ->
             (a - err <= slope <= a + err)%Q ->
             ((err < a)%Q -> is_ma_trending_up lstsq ma lookback = Ok true)
             /\ ((a < - err)%Q ->
                 is_ma_trending_up lstsq ma lookback = Ok false)).
Proof.
  intros Hk. split; intros Htd.
  - destruct (Z.ltb_spec (Z.of_nat (length ma)) lookback) as [Hshort|Hlong].
    + unfold is_ma_trending_up.
      by replace (Z.of_nat (length ma) <? lookback)%Z with true
        by (symmetry; apply Z.ltb_lt; lia).
    + rewrite is_ma_trending_up_recent by lia.
      by rewrite trailing_defined_gap by lia.
  - pose proof (trailing_defined_le ma) as Hle.
    destruct (trailing_defined_tail ma (Z.to_nat lookback) ltac:(lia))
      as [ys Hys].
    assert (length ys = Z.to_nat lookback) as Hlen.
    { rewrite <- (length_map Some ys), <- Hys. apply tail_length. lia. }
    destruct (arange_least_squares lookback ys Hk Hlen) as [Hfit Huniq].
    eexists ys, _, _. split; [done|]. split; [exact Hfit|].
    split; [exact Huniq|].
    rewrite is_ma_trending_up_recent, Hys, mapM_id_Some by lia.
    split; [done|]. intros slope err -> Herr.
    destruct (fgt_within _ _ _ Herr) as [Hup Hdown].
    split; intros Ha; f_equal; auto.
Qed.

Lemma is_ma_trending_up_least_squares_witness :
  exists ys a b,
    tail (Z.to_nat 3) [Some 1%Q; Some 2%Q; Some 4%Q] = map Some ys
    /\ least_squares_line (arange 3) ys a b
    /\ (forall a' b', least_squares_line (arange 3) ys a' b' -> (a' == a)%Q)
    /\ is_ma_trending_up exact_solver [Some 1%Q; Some 2%Q; Some 4%Q] 3
       = Ok (fgt (computed_slope exact_solver 3 ys) (of_int 0))
    /\ forall slope err,
         computed_slope exact_solver 3 ys = Some slope ->
         (a - err <= slope <= a + err)%Q ->
         ((err < a)%Q ->
          is_ma_trending_up exact_solver [Some 1%Q; Some 2%Q; Some 4%Q] 3
          = Ok true)
         /\ ((a < - err)%Q ->
             is_ma_trending_up exact_solver [Some 1%Q; Some 2%Q; Some 4%Q] 3
             = Ok false).
Proof.
  apply (is_ma_trending_up_least_squares exact_solver
           [Some 1%Q; Some 2%Q; Some 4%Q] 3).
  - lia.
  - vm_compute. discriminate.
Defined.

(** C3 does not hold for every lookback: with a single point the fit has no
    slope and NumPy fails, and with a lookback of 0 there is nothing to fit;
    both calls raise instead of returning a verdict (the solver is not
    reached). *)
Lemma is_ma_trending_up_degenerate_lookback :
  is_ma_trending_up exact_solver [Some 1%Q; Some 2%Q] 1 = Raise LinAlgError
  /\ is_ma_trending_up exact_solver [Some 1%Q; Some 2%Q] 0 = Raise TypeError.
Proof. split; reflexivity. Qed.

(** ** ScreeningOrchestrator *)

Lemma series_mul_columns (series : list PricePoint) :
  series_mul (column close series)
             (column (fun p => inject_Z (volume p)) series)
  = map Some (traded_values series).
Proof.
  unfold series_mul, column, traded_values.
  induction series as [|p series IH]; simpl; [done|]. by rewrite IH.
Qed.

Lemma tail_fmap {A B} (f : A -> B) (n : nat) (l : list A) :
  tail n (map f l) = map f (tail n l).
Proof. unfold tail. by rewrite length_map, <- fmap_drop. Qed.

Lemma omap_id_Some (l : list Q) : omap id (map Some l) = l.
Proof. induction l as [|a l IH]; simpl; [done|]. f_equal. exact IH. Qed.

Lemma series_mean_traded (series : list PricePoint) :
  series <> [] ->
  series_mean (tail 30 (map Some (traded_values series)))
  = Some (avg_traded_value series).
Proof.
  intros Hne. rewrite tail_fmap. unfold series_mean, avg_traded_value.
  rewrite omap_id_Some. cbv zeta.
  destruct (tail 30 (traded_values series)) as [|v recent] eqn:E; [|done].
  apply (f_equal length) in E. unfold tail, traded_values in E.
  rewrite length_drop, length_map in E. destruct series; [done|].
  simpl in E. lia.
Qed.

Lemma row_get_last (data : DataFrame) (name : string) (r : Row) :
  row_last data = Ok r ->
  row_get r name = rbind (getitem data name) (fun c => Ok (latest c)).
Proof.
  unfold row_last, row_get, getitem, latest.
  destruct (last (index data)); [|done]. intros [= <-]. simpl.
  rewrite lookup_fmap. by destruct (columns data !! name).
Qed.

Lemma is_ma_trending_up_defined (lstsq : Solver) (ma : list float)
    (lookback : Z) :
  (2 <= lookback <= Z.of_nat (length ma))%Z ->
  is_ma_trending_up lstsq ma lookback
  = Ok (flag (is_ma_trending_up lstsq ma lookback)).
Proof.
  intros Hk. rewrite is_ma_trending_up_recent by done.
  by destruct (mapM id (tail (Z.to_nat lookback) ma)).
Qed.

Lemma iloc_in_range {A} (l : list A) (k : Z) :
  (- Z.of_nat (length l) <= k < Z.of_nat (length l))%Z ->
  exists a, iloc l k = Ok a.
Proof.
  intros Hk. unfold iloc.
  set (p := if (k <? 0)%Z then (Z.of_nat (length l) + k)%Z else k).
  assert (0 <= p < Z.of_nat (length l))%Z as Hp
    by (subst p; destruct (Z.ltb_spec k 0); lia).
  replace ((p <? 0)%Z || (Z.of_nat (length l) <=? p)%Z) with false.
  - destruct (lookup_lt_is_Some_2 l (Z.to_nat p) ltac:(lia)) as [a ->]. eauto.
  - symmetry. apply orb_false_iff. split; [apply Z.ltb_ge|apply Z.leb_gt]; lia.
Qed.

Lemma check_golden_cross_defined (ma_short ma_long : list float) :
  2 <= length ma_short -> 2 <= length ma_long ->
  check_golden_cross ma_short ma_long
  = Ok (flag (check_golden_cross ma_short ma_long)).
Proof.
  intros Hs Hl. unfold check_golden_cross.
  replace (length ma_short <? 2)%nat with false
    by (symmetry; apply Nat.ltb_ge; lia).
  replace (length ma_long <? 2)%nat with false
    by (symmetry; apply Nat.ltb_ge; lia).
  destruct (iloc_in_range ma_short (-2) ltac:(lia)) as [? ->].
  destruct (iloc_in_range ma_long (-2) ltac:(lia)) as [? ->].
  destruct (iloc_in_range ma_short (-1) ltac:(lia)) as [? ->].
  destruct (iloc_in_range ma_long (-1) ltac:(lia)) as [? ->].
  reflexivity.
Qed.

Lemma column_map (f : PricePoint -> Q) (series : list PricePoint) :
  column f series = map Some (map f series).
Proof. unfold column. by rewrite map_map. Qed.

Lemma ma_length (series : list PricePoint) (P : nat) :
  length (ma series P) = length series.
Proof. unfold ma, column. by rewrite rolling_mean_length, length_map. Qed.

Ltac eval_keys :=
  repeat match goal with
  | |- context [String.eqb ?a ?b] =>
      let v := eval vm_compute in (String.eqb a b) in
      progress change (String.eqb a b) with v
  end.

Lemma row_last_with_averages (series : list PricePoint) :
  series <> [] ->
  exists r, row_last (with_averages series) = Ok r
            /\ row_name r = latest_date series.
Proof.
  intros Hne. unfold row_last, latest_date. simpl index.
  destruct (last (map date series)) as [d|] eqn:E.
  - eexists. split; [reflexivity|done].
  - apply last_None in E. by destruct series.
Qed.

Lemma getitem_with_averages (series : list PricePoint) :
  getitem (with_averages series) "MA200" = Ok (ma series 200)
  /\ getitem (with_averages series) "MA100" = Ok (ma series 100)
  /\ getitem (with_averages series) "MA50" = Ok (ma series 50)
  /\ getitem (with_averages series) "Close" = Ok (column close series)
  /\ getitem (with_averages series) "Low" = Ok (column low series).
Proof.
  unfold with_averages, with_traded_value.
  repeat split; rewrite !getitem_setitem; eval_keys; reflexivity.
Qed.

(** The whole run of the [try] block on the frame of a series: the three
    exits, the value returned at each and the frame left behind. *)
Lemma screen_body_history (lstsq : Solver) (min_volume : Z) (info : result
    (gmap string string))
    (code name : string) (series : list PricePoint) :
  screen_body lstsq min_volume info code name (history series)
  = if (length series <? 200)%nat then (Ok None, history series)
    else if flt (Some (avg_traded_value series)) (of_int min_volume)
    then (Ok None, with_traded_value series)
    else (Ok (if trend_flag lstsq series && (bottom_flag series || golden_flag series)
              then Some (signal_result info code name series) else None),
          with_averages series).
Proof.
  unfold screen_body, bind, read, ret, load, store, lift. cbv beta iota.
  rewrite empty_history, len_history.
  destruct (Nat.ltb_spec (length series) 200) as [Hshort|Hlong].
  { replace ((length series =? 0)%nat || (Z.of_nat (length series) <? 200)%Z)
      with true; [done|].
    symmetry. apply orb_true_iff. right. apply Z.ltb_lt. lia. }
  replace ((length series =? 0)%nat || (Z.of_nat (length series) <? 200)%Z)
    with false
    by (symmetry; apply orb_false_iff; split;
        [apply Nat.eqb_neq|apply Z.ltb_ge]; lia).
  assert (series <> []) as Hne by (intros ->; simpl in Hlong; lia).
  rewrite getitem_history_Close, getitem_history_Volume. cbv beta iota zeta.
  rewrite series_mul_columns. fold (with_traded_value series).
  unfold with_traded_value at 1. rewrite getitem_setitem. eval_keys.
  fold (with_traded_value series). cbv beta iota.
  rewrite series_mean_traded by done.
  destruct (flt (Some (avg_traded_value series)) (of_int min_volume)); [done|].
  unfold with_traded_value at 1. rewrite getitem_setitem. eval_keys.
  rewrite getitem_history_Close. fold (with_traded_value series).
  change (calculate_ma (column close series) 50) with (Ok (ma series 50)).
  cbv beta iota.
  rewrite !getitem_setitem. eval_keys.
  unfold with_traded_value at 1. rewrite getitem_setitem. eval_keys.
  rewrite getitem_history_Close. fold (with_traded_value series).
  change (calculate_ma (column close series) 100) with (Ok (ma series 100)).
  cbv beta iota.
  rewrite !getitem_setitem. eval_keys.
  unfold with_traded_value at 1. rewrite getitem_setitem. eval_keys.
  rewrite getitem_history_Close. fold (with_traded_value series).
  change (calculate_ma (column close series) 200) with (Ok (ma series 200)).
  cbv beta iota.
  fold (with_averages series).
  destruct (row_last_with_averages series Hne) as (latest_row & Hrow & Hname).
  destruct (getitem_with_averages series) as (H200 & H100 & H50 & Hc & Hl).
  rewrite Hrow. cbv beta iota. rewrite H200. cbv beta iota.
  pose proof (ma_length series 200) as Hlen200.
  pose proof (ma_length series 100) as Hlen100.
  pose proof (ma_length series 50) as Hlen50.
  rewrite is_ma_trending_up_defined by lia. fold (trend_flag lstsq series).
  cbv beta iota.
  destruct (trend_flag lstsq series); cbn [negb andb]; [|done].
  rewrite !(row_get_last _ _ _ Hrow), Hl, Hc, H200. cbn [rbind].
  rewrite H50, H100. cbv beta iota.
  rewrite check_golden_cross_defined by lia.
  fold (golden_flag series). fold (bottom_flag series). cbv beta iota.
  destruct (bottom_flag series || golden_flag series) eqn:Hany; [|done].
  unfold signal_result. by rewrite Hname.
Qed.

(** C1 fails on a series whose 200-bar average is flat.  The closes of
    [flat_average_bars 250] alternate between 12 and 14, so the mean of the
    last 200 closes is 13 at each of the last five bars.  The least-squares
    line through these five means has slope 0: the average is not trending
    up, and C1 expects no result.  The traded value is above the threshold,
    the last low is at or below the average and the last close strictly
    above it, so everything hangs on the trend test, and [screen_stock]
    returns a result exactly when the slope the solver returns for the five
    means is strictly positive: it does for a solver that is off by 1e-16. *)
Theorem screen_stock_flat_average (lstsq : Solver)
    (info : result (gmap string string)) (code name : string) :
  let series := flat_average_bars 250 in
  let closes := map close series in
  (forall i, 245 <= i < 250 -> (mean_of_window closes i 200 == 13)%Q)
  /\ (forall a b,
        least_squares_line (arange 5) [13; 13; 13; 13; 13]%Q a b -> (a == 0)%Q)
  /\ (inject_Z 1000000 <= avg_traded_value series)%Q
  /\ (exists bar, last series = Some bar
        /\ (low bar <= mean_of_window closes 249 200)%Q
        /\ (mean_of_window closes 249 200 < close bar)%Q)
  /\ ((exists r,
         (screen_stock lstsq 1000000 info code name (history series)).1
         = Some r)
      <-> fgt (computed_slope lstsq 5 [13; 13; 13; 13; 13]%Q) (of_int 0)
          = true)
  /\ exists r,
       (screen_stock (noisy_solver (1 # 10000000000000000)) 1000000
          info code name (history series)).1 = Some r.
Proof.
  intros series closes.
  assert (forall solver : Solver,
            (exists r,
               (screen_stock solver 1000000 info code name (history series)).1
               = Some r)
            <-> fgt (computed_slope solver 5 [13; 13; 13; 13; 13]%Q) (of_int 0)
                = true) as Hiff.
  { intros solver. unfold screen_stock. rewrite screen_body_history.
    replace (length series <? 200)%nat with false by (by vm_compute).
    replace (flt (Some (avg_traded_value series)) (of_int 1000000))
      with false by (by vm_compute).
    replace (bottom_flag series) with true by (by vm_compute).
    replace (trend_flag solver series)
      with (fgt (computed_slope solver 5 [13; 13; 13; 13; 13]%Q) (of_int 0)).
    - cbn [orb fst].
      destruct (fgt (computed_slope solver 5 [13; 13; 13; 13; 13]%Q)
                  (of_int 0)); cbn [andb].
      + split; [done|]. intros _. by eexists.
      + split; [by intros [? [=]]|done].
    - unfold trend_flag.
      rewrite is_ma_trending_up_recent by (rewrite ma_length; by vm_compute).
      replace (mapM id (tail (Z.to_nat 5) (ma series 200)))
        with (Some [2600 # 200; 2600 # 200; 2600 # 200; 2600 # 200;
                    2600 # 200]%Q) by (by vm_compute).
      reflexivity. }
  split.
  { intros i Hi.
    assert (i = 245 \/ i = 246 \/ i = 247 \/ i = 248 \/ i = 249)
      as [->|[->|[->|[->| ->]]]] by lia; by vm_compute. }
  split.
  { intros a b Hfit.
    rewrite (proj2 (arange_least_squares 5 [13; 13; 13; 13; 13]%Q
                      ltac:(lia) eq_refl) a b Hfit).
    by vm_compute. }
  split; [by vm_compute|].
  split.
  { eexists. split; [by vm_compute|]. split; by vm_compute. }
  split; [apply Hiff|].
  apply Hiff. by vm_compute.
Qed.

(** C10: a series of 200 to 203 bars is always rejected, because all but
    at most the last four entries of its 200-bar average are NaN and the
    trend test over five entries therefore fails. *)
Theorem screen_stock_rejects_200_to_203 (lstsq : Solver) (min_volume : Z)
    (info : result (gmap string string)) (code name : string)
    (series : list PricePoint) :
  200 <= length series <= 203 ->
  (screen_stock lstsq min_volume info code name (history series)).1 = None
  /\ (forall i, i + 5 <= length series -> ma series 200 !! i = Some NaN)
  /\ is_ma_trending_up lstsq (ma series 200) 5 = Ok false.
Proof.
  intros [Hlo Hhi].
  assert (forall i, i + 5 <= length series -> ma series 200 !! i = Some NaN)
    as Hnan.
  { intros i Hi. unfold ma. rewrite column_map.
    apply (rolling_mean_lookup (map close series) 200 i); rewrite ?length_map;
      lia. }
  assert (is_ma_trending_up lstsq (ma series 200) 5 = Ok false) as Htrend.
  { rewrite is_ma_trending_up_recent by (rewrite ma_length; lia).
    replace (mapM id (tail (Z.to_nat 5) (ma series 200))) with (@None (list Q));
      [done|].
    symmetry. apply mapM_None_2, Exists_exists. exists NaN. split; [|done].
    apply list_elem_of_lookup. exists 0. unfold tail.
    rewrite lookup_drop, Nat.add_0_r, ma_length. apply Hnan. lia. }
  split; [|done].
  unfold screen_stock. rewrite screen_body_history.
  replace (length series <? 200)%nat with false
    by (symmetry; apply Nat.ltb_ge; lia).
  destruct (flt (Some (avg_traded_value series)) (of_int min_volume)); [done|].
  unfold trend_flag. by rewrite Htrend.
Qed.

Lemma screen_stock_rejects_200_to_203_witness :
  (screen_stock exact_solver 1000000 (Raise KeyError) "7203" "7203"
     (history (rising_bars 203))).1 = None
  /\ (forall i, i + 5 <= length (rising_bars 203) ->
        ma (rising_bars 203) 200 !! i = Some NaN)
  /\ is_ma_trending_up exact_solver (ma (rising_bars 203) 200) 5 = Ok false.
Proof.
  apply (screen_stock_rejects_200_to_203 exact_solver 1000000 (Raise KeyError)
           "7203" "7203" (rising_bars 203)).
  vm_compute. lia.
Defined.

(** A 250-bar rising series is accepted, on a bottom cross, in the
    standard tier; with 204 bars the trend test has its five values. *)
Example screen_stock_rising_250 :
  (screen_stock exact_solver 1000000 (Raise KeyError) "7203" "7203"
     (history (rising_bars 250))).1
  = Some {| r_code := "7203"; r_name := "7203";
            r_price := Some (inject_Z 349);
            r_ma200_trend := "上昇";
            r_bottom_cross := "✅"; r_golden_cross := "—";
            r_avg_volume_30d := Some (1505250000 # 30);
            r_risk_tag := "🟡標準";
            r_date := "249" |}.
Proof. vm_compute. reflexivity. Qed.

Example screen_stock_rising_204 :
  exists r, (screen_stock exact_solver 1000000 (Raise KeyError) "7203" "7203"
               (history (rising_bars 204))).1 = Some r.
Proof. vm_compute. eauto. Qed.

(** C7: the tier is read off the mean of close times volume over the last
    30 bars; 100,000,000 and above is the stable tier, from 10,000,000 up
    to but excluding 100,000,000 the standard tier, anything below the
    speculative tier, each lower bound included. *)
Theorem liquidity_tier (lstsq : Solver) (min_volume : Z) (info : result
    (gmap string string))
    (code name : string) (series : list PricePoint) (v : Q) :
  (risk_tag (Some v) = "🟢安定" <-> (inject_Z 100000000 <= v)%Q)
  /\ (risk_tag (Some v) = "🟡標準"
      <-> (inject_Z 10000000 <= v /\ v < inject_Z 100000000)%Q)
  /\ (risk_tag (Some v) = "🔴冒険" <-> (v < inject_Z 10000000)%Q)
  /\ match (screen_stock lstsq min_volume info code name (history series)).1 with
     | Some r =>
         r_avg_volume_30d r = Some (avg_traded_value series)
         /\ r_risk_tag r = risk_tag (r_avg_volume_30d r)
     | None => True
     end.
Proof.
  destruct (risk_tag_ladder v) as (H1 & H2 & H3).
  repeat split; try tauto.
  unfold screen_stock. rewrite screen_body_history.
  destruct (length series <? 200)%nat; [done|].
  destruct (flt (Some (avg_traded_value series)) (of_int min_volume)); [done|].
  simpl fst.
  by destruct (trend_flag lstsq series && (bottom_flag series || golden_flag series)).
Qed.

Example risk_tag_boundaries :
  risk_tag (of_int 100000000) = "🟢安定"
  /\ risk_tag (of_int 99999999) = "🟡標準"
  /\ risk_tag (of_int 10000000) = "🟡標準"
  /\ risk_tag (of_int 9999999) = "🔴冒険".
Proof. repeat split. Qed.

(** C9, as the code has it: [screen_stock] never touches the row labels or
    the columns the provider supplied, but it does store derived columns
    into the frame it was given: none when the series is too short, the
    traded value when the symbol is illiquid, the traded value and the
    three averages otherwise. *)
Theorem screen_stock_frame (lstsq : Solver) (min_volume : Z)
    (info : result (gmap string string)) (code name : string)
    (series : list PricePoint) :
  let data' := (screen_stock lstsq min_volume info code name (history series)).2 in
  data' = (if (length series <? 200)%nat then history series
           else if flt (Some (avg_traded_value series)) (of_int min_volume)
           then with_traded_value series
           else with_averages series)
  /\ index data' = index (history series)
  /\ forall c : string,
       c <> "Volume_Yen" -> c <> "MA50" -> c <> "MA100" -> c <> "MA200" ->
       getitem data' c = getitem (history series) c.
Proof.
  unfold screen_stock. rewrite screen_body_history.
  destruct (length series <? 200)%nat; [done|].
  assert (forall c : string, c <> "Volume_Yen" ->
            getitem (with_traded_value series) c = getitem (history series) c)
    as Hvy.
  { intros c Hc. unfold with_traded_value. rewrite getitem_setitem.
    destruct (String.eqb_spec "Volume_Yen" c); [by subst|done]. }
  destruct (flt (Some (avg_traded_value series)) (of_int min_volume)).
  - simpl. repeat split; try done. intros c Hc _ _ _. by apply Hvy.
  - simpl. repeat split; try done. intros c Hc H50 H100 H200.
    unfold with_averages. rewrite !getitem_setitem.
    destruct (String.eqb_spec "MA200" c); [by subst|].
    destruct (String.eqb_spec "MA100" c); [by subst|].
    destruct (String.eqb_spec "MA50" c); [by subst|]. by apply Hvy.
Qed.

Lemma screen_stock_frame_witness :
  getitem (screen_stock exact_solver 1000000 (Raise KeyError) "7203" "7203"
             (history (rising_bars 250))).2 "Close"
  = getitem (history (rising_bars 250)) "Close".
Proof.
  apply (screen_stock_frame exact_solver 1000000 (Raise KeyError) "7203" "7203"
           (rising_bars 250)); discriminate.
Defined.

(** C9 fails as stated: after screening an accepted 250-bar series the
    frame is not the frame that was passed in, it has gained a column. *)
Lemma screen_stock_mutates_frame :
  (screen_stock exact_solver 1000000 (Raise KeyError) "7203" "7203"
     (history (rising_bars 250))).2 <> history (rising_bars 250)
  /\ getitem (history (rising_bars 250)) "Volume_Yen" = Raise KeyError
  /\ exists c,
       getitem (screen_stock exact_solver 1000000 (Raise KeyError) "7203" "7203"
                  (history (rising_bars 250))).2 "Volume_Yen" = Ok c.
Proof.
  assert (exists c,
            getitem (screen_stock exact_solver 1000000 (Raise KeyError) "7203" "7203"
                       (history (rising_bars 250))).2 "Volume_Yen" = Ok c)
    as [c Hc] by (vm_compute; eauto).
  split; [|split; [reflexivity|by exists c]].
  intros H. rewrite H in Hc. discriminate Hc.
Qed.

(** ** WinRateBacktester *)

Lemma index_of_None (dates : list string) (d : string) :
  d ∉ dates -> index_of dates d = None.
Proof.
  induction dates as [|x rest IH]; intros Hd; simpl; [done|].
  apply not_elem_of_cons in Hd as [Hx Hrest].
  destruct (String.eqb_spec x d); [by subst|]. by rewrite IH.
Qed.

Lemma index_of_lt (dates : list string) (d : string) (i : nat) :
  index_of dates d = Some i -> i < length dates.
Proof.
  revert i. induction dates as [|x rest IH]; intros i; simpl; [done|].
  destruct (String.eqb x d).
  - intros [= <-]. lia.
  - destruct (index_of rest d) as [j|]; [|done]. intros [= <-].
    specialize (IH j eq_refl). lia.
Qed.

Lemma positions_NoDup (dates : list string) (d : string) (k : nat) :
  NoDup dates ->
  positions dates d k
  = match index_of dates d with
    | Some i => [k + i]
    | None => []
    end.
Proof.
  intros Hnd. revert k. induction Hnd as [|x rest Hx Hnd IH]; intros k; simpl.
  - done.
  - rewrite IH. destruct (String.eqb_spec x d) as [->|Hne].
    + rewrite (index_of_None rest d Hx). by rewrite Nat.add_0_r.
    + destruct (index_of rest d); simpl; [|done]. f_equal. lia.
Qed.

Lemma get_loc_NoDup (parse : Parser) (series : list PricePoint) (d : string) :
  NoDup (map date series) ->
  get_loc parse (map date series) d
  = match found_at parse series d with
    | Some i => Ok (Z.of_nat i)
    | None => Raise KeyError
    end.
Proof.
  intros Hnd. unfold get_loc, found_at. destruct (parse d) as [day|]; [|done].
  rewrite positions_NoDup by done.
  by destruct (index_of (map date series) day).
Qed.

Lemma found_at_lt (parse : Parser) (series : list PricePoint) (d : string)
    (i : nat) :
  found_at parse series d = Some i -> i < length series.
Proof.
  unfold found_at. destruct (parse d) as [day|]; [|done].
  intros Hi. apply index_of_lt in Hi. by rewrite length_map in Hi.
Qed.

Lemma iloc_column_close (series : list PricePoint) (k : Z) :
  (0 <= k < Z.of_nat (length series))%Z ->
  exists q, close_at series k = Some q
            /\ iloc (column close series) k = Ok (Some q).
Proof.
  intros Hk. unfold iloc, close_at, column. rewrite length_map.
  replace (k <? 0)%Z with false by (symmetry; apply Z.ltb_ge; lia).
  replace ((k <? 0)%Z || (Z.of_nat (length series) <=? k)%Z) with false
    by (symmetry; apply orb_false_iff; split;
        [apply Z.ltb_ge|apply Z.leb_gt]; lia).
  destruct (lookup_lt_is_Some_2 series (Z.to_nat k) ltac:(lia)) as [p Hp].
  exists (close p). rewrite Hp. split; [done|].
  change (map (fun p0 => Some (close p0)) series)
    with ((fun p0 => Some (close p0)) <$> series).
  by rewrite list_lookup_fmap, Hp.
Qed.

Lemma win_step_history (parse : Parser) (series : list PricePoint)
    (forward_days : Z)
    (acc : Z * Z) (d : string) :
  NoDup (map date series) -> (0 <= forward_days)%Z ->
  win_step parse (history series) forward_days acc d
  = ((acc.1 + if evaluated parse series forward_days d
                 && is_win parse series forward_days d then 1 else 0)%Z,
     (acc.2 + if evaluated parse series forward_days d then 1 else 0)%Z).
Proof.
  intros Hnd Hfd. destruct acc as [wins total].
  unfold win_step, evaluated, is_win. simpl index.
  rewrite get_loc_NoDup, len_history by done.
  destruct (found_at parse series d) as [i|] eqn:Ei; cbn [rbind fst snd].
  - apply found_at_lt in Ei.
    destruct (Z.ltb_spec (Z.of_nat i + forward_days) (Z.of_nat (length series)))
      as [Hin|Hout]; cbn [andb].
    + rewrite getitem_history_Close. cbn [rbind].
      destruct (iloc_column_close series (Z.of_nat i) ltac:(lia))
        as (e & -> & ->).
      destruct (iloc_column_close series (Z.of_nat i + forward_days)
                  ltac:(lia)) as (x & -> & ->).
      cbn [rbind]. unfold fgt, flt.
      destruct (negb (Qle_bool x e)); f_equal; lia.
    + f_equal; lia.
  - cbn [andb]. f_equal; lia.
Qed.

Lemma win_loop_from (parse : Parser) (series : list PricePoint)
    (forward_days : Z)
    (signal_dates : list string) :
  NoDup (map date series) -> (0 <= forward_days)%Z ->
  forall acc : Z * Z,
    fold_left (win_step parse (history series) forward_days) signal_dates acc
    = ((acc.1 + count_if (fun d => evaluated parse series forward_days d
                                   && is_win parse series forward_days d)
                  signal_dates)%Z,
       (acc.2 + count_if (evaluated parse series forward_days) signal_dates)%Z).
Proof.
  intros Hnd Hfd. unfold count_if.
  induction signal_dates as [|d rest IH]; intros [wins total]; simpl.
  - f_equal; lia.
  - rewrite win_step_history, IH by done. simpl.
    destruct (evaluated parse series forward_days d);
      destruct (is_win parse series forward_days d); simpl; f_equal; lia.
Qed.

(** C6: for a forward horizon (zero or more days), the dates that count are
    exactly the signal dates found in the series, that is, read by pandas
    as a day that is a row label, with [index + forward_days < length];
    such a date is a win exactly when the close [forward_days] bars later
    is strictly above the close on the date; every other date is left out
    of both counts; the rate is [wins / evaluated * 100], and 0 when
    nothing was evaluated. *)
Theorem calculate_win_rate_counts (parse : Parser) (series : list PricePoint)
    (signal_dates : list string) (forward_days : Z) :
  NoDup (map date series) -> (0 <= forward_days)%Z ->
  let wins := count_if (fun d => evaluated parse series forward_days d
                                 && is_win parse series forward_days d)
                signal_dates in
  let total := count_if (evaluated parse series forward_days) signal_dates in
  win_loop parse (history series) signal_dates forward_days = (wins, total)
  /\ calculate_win_rate parse (history series) signal_dates forward_days
     = if (total =? 0)%Z then 0%Q
       else (inject_Z wins / inject_Z total * inject_Z 100)%Q.
Proof.
  intros Hnd Hfd wins total.
  assert (win_loop parse (history series) signal_dates forward_days = (wins, total))
    as Hloop.
  { unfold win_loop. rewrite win_loop_from by done. by rewrite !Z.add_0_l. }
  split; [done|]. unfold calculate_win_rate. rewrite Hloop.
  assert (0 <= total)%Z as Hpos by (subst total; unfold count_if; lia).
  destruct signal_dates as [|d rest]; [done|].
  destruct (Z.ltb_spec 0 total), (Z.eqb_spec total 0); try done; lia.
Qed.

Lemma calculate_win_rate_counts_witness :
  win_loop iso_only (history (rising_bars 10)) ["0"; "3"; "8"; "2024-01-05"] 5
  = (count_if (fun d => evaluated iso_only (rising_bars 10) 5 d
                        && is_win iso_only (rising_bars 10) 5 d)
       ["0"; "3"; "8"; "2024-01-05"],
     count_if (evaluated iso_only (rising_bars 10) 5) ["0"; "3"; "8"; "2024-01-05"])
  /\ calculate_win_rate iso_only (history (rising_bars 10))
       ["0"; "3"; "8"; "2024-01-05"] 5
     = if (count_if (evaluated iso_only (rising_bars 10) 5)
             ["0"; "3"; "8"; "2024-01-05"] =? 0)%Z then 0%Q
       else (inject_Z (count_if (fun d => evaluated iso_only (rising_bars 10) 5 d
                                          && is_win iso_only (rising_bars 10) 5 d)
                         ["0"; "3"; "8"; "2024-01-05"])
             / inject_Z (count_if (evaluated iso_only (rising_bars 10) 5)
                           ["0"; "3"; "8"; "2024-01-05"])
             * inject_Z 100)%Q.
Proof.
  apply (calculate_win_rate_counts iso_only (rising_bars 10)
           ["0"; "3"; "8"; "2024-01-05"] 5).
  - apply (bool_decide_unpack _). vm_compute. reflexivity.
  - lia.
Defined.

(** Two of the four dates above are evaluated, both are wins. *)
Example calculate_win_rate_rising :
  win_loop iso_only (history (rising_bars 10)) ["0"; "3"; "8"; "2024-01-05"] 5
  = (2%Z, 2%Z)
  /\ (calculate_win_rate iso_only (history (rising_bars 10))
        ["0"; "3"; "8"; "2024-01-05"] 5 == 100)%Q.
Proof. split; reflexivity. Qed.

(** Why the horizon is taken to be a forward one.  With a horizon of -4, a
    configuration error, all three dates are found and satisfy
    [index + forward_days < length], yet the code evaluates only two of
    them (the exit position of the first lies before the series, the other
    two wrap around to earlier closes) and reports 100. *)
Example calculate_win_rate_negative_horizon :
  count_if (evaluated iso_only (falling_bars 3) (-4)) ["0"; "1"; "2"] = 3%Z
  /\ win_loop iso_only (history (falling_bars 3)) ["0"; "1"; "2"] (-4) = (2%Z, 2%Z)
  /\ (calculate_win_rate iso_only (history (falling_bars 3)) ["0"; "1"; "2"] (-4)
      == 100)%Q
  /\ count_if (fun d => evaluated iso_only (falling_bars 3) (-4) d
                        && is_win iso_only (falling_bars 3) (-4) d)
       ["0"; "1"; "2"] = 0%Z.
Proof. repeat split. Qed.

(** A date spelled unlike the labels is found all the same when pandas
    reads it as the same day: the second bar of this frame closes above the
    first, and the signal on the first bar, written with slashes, is
    evaluated and won. *)
Example calculate_win_rate_other_spelling :
  let data := {| index := ["2024-01-04"; "2024-01-05"];
                 columns := <["Close" := [Some 100%Q; Some 101%Q]]> ∅ |} in
  get_loc slash_parser (index data) "2024/01/04" = Ok 0%Z
  /\ win_loop slash_parser data ["2024/01/04"] 1 = (1%Z, 1%Z)
  /\ (calculate_win_rate slash_parser data ["2024/01/04"] 1 == 100)%Q.
Proof. repeat split. Qed.

(** * Further properties of the code *)

(** ** WinRateBacktester on arbitrary frames *)

Lemma win_step_bounds (parse : Parser) (data : DataFrame) (forward_days : Z)
    (acc : Z * Z)
    (d : string) :
  (0 <= acc.1 <= acc.2)%Z ->
  (0 <= (win_step parse data forward_days acc d).1
     <= (win_step parse data forward_days acc d).2)%Z.
Proof.
  intros Hacc. unfold win_step.
  destruct (get_loc parse (index data) d) as [i|]; cbn [rbind]; [|done].
  destruct (i + forward_days <? len data)%Z; [|done].
  destruct (getitem data "Close") as [c|]; cbn [rbind]; [|done].
  destruct (iloc c i) as [e|]; cbn [rbind]; [|done].
  destruct (iloc c (i + forward_days)) as [x|]; cbn [rbind]; [|done].
  destruct (fgt x e); simpl; lia.
Qed.

Lemma win_loop_bounds (parse : Parser) (data : DataFrame) (forward_days : Z)
    (signal_dates : list string) :
  forall acc : Z * Z,
    (0 <= acc.1 <= acc.2)%Z ->
    (0 <= (fold_left (win_step parse data forward_days) signal_dates acc).1
       <= (fold_left (win_step parse data forward_days) signal_dates acc).2)%Z.
Proof.
  induction signal_dates as [|d rest IH]; intros acc Hacc; simpl; [done|].
  apply IH. by apply win_step_bounds.
Qed.

(** X1: whatever the frame, the dates and the horizon, the rate is a
    percentage: wins never exceed the evaluated dates. *)
Theorem calculate_win_rate_percentage (parse : Parser) (data : DataFrame)
    (signal_dates : list string) (forward_days : Z) :
  (0 <= calculate_win_rate parse data signal_dates forward_days <= 100)%Q.
Proof.
  unfold calculate_win_rate. destruct signal_dates as [|d rest]; [lra|].
  pose proof (win_loop_bounds parse data forward_days (d :: rest) (0%Z, 0%Z)
                ltac:(simpl; lia)) as Hb.
  fold (win_loop parse data (d :: rest) forward_days) in Hb.
  destruct (win_loop parse data (d :: rest) forward_days) as [wins total].
  simpl in Hb. destruct (Z.ltb_spec 0 total) as [Hpos|Hzero]; [|lra].
  assert (0 <= inject_Z wins)%Q as Hw
    by (change 0%Q with (inject_Z 0); rewrite <- Zle_Qle; lia).
  assert (inject_Z wins <= inject_Z total)%Q as Hwt
    by (rewrite <- Zle_Qle; lia).
  assert (0 < inject_Z total)%Q as Ht
    by (change 0%Q with (inject_Z 0); rewrite <- Zlt_Qlt; lia).
  assert (0 <= inject_Z wins / inject_Z total <= 1)%Q as [Hlo Hhi].
  { split.
    - apply Qle_shift_div_l; [done|]. lra.
    - apply Qle_shift_div_r; [done|]. lra. }
  change (inject_Z 100) with 100%Q. lra.
Qed.

Lemma positions_unknown (idx : list string) (day : string) (k : nat) :
  day ∉ idx -> positions idx day k = [].
Proof.
  revert k. induction idx as [|x rest IH]; intros k Hd; simpl; [done|].
  apply not_elem_of_cons in Hd as [Hx Hrest].
  destruct (String.eqb_spec x day); [by subst|]. by apply IH.
Qed.

Lemma win_step_unknown_date (parse : Parser) (data : DataFrame)
    (forward_days : Z) (acc : Z * Z) (d : string) :
  known_date parse data d = false ->
  win_step parse data forward_days acc d = acc.
Proof.
  intros Hd. unfold win_step, get_loc. unfold known_date in Hd.
  destruct (parse d) as [day|]; [|done].
  apply bool_decide_eq_false in Hd.
  by rewrite positions_unknown.
Qed.

Lemma win_step_no_close (parse : Parser) (data : DataFrame) (forward_days : Z)
    (acc : Z * Z) (d : string) :
  columns data !! "Close" = None -> win_step parse data forward_days acc d = acc.
Proof.
  intros Hc. unfold win_step, getitem. rewrite Hc.
  destruct (get_loc parse (index data) d) as [i|]; cbn [rbind]; [|done].
  by destruct (i + forward_days <? len data)%Z.
Qed.

(** X2: signal dates that pandas does not read as one day, or whose day is
    not a row label of the frame, are skipped without error: dropping them
    from the list leaves the rate unchanged. *)
Theorem calculate_win_rate_ignores_unknown_dates (parse : Parser)
    (data : DataFrame) (signal_dates : list string) (forward_days : Z) :
  calculate_win_rate parse data signal_dates forward_days
  = calculate_win_rate parse data
      (List.filter (known_date parse data) signal_dates) forward_days.
Proof.
  assert (forall acc,
            fold_left (win_step parse data forward_days) signal_dates acc
            = fold_left (win_step parse data forward_days)
                (List.filter (known_date parse data) signal_dates) acc)
    as Hfold.
  { induction signal_dates as [|d rest IH]; intros acc; simpl; [done|].
    destruct (known_date parse data d) eqn:Hk; simpl.
    - apply IH.
    - rewrite win_step_unknown_date by done. apply IH. }
  unfold calculate_win_rate, win_loop. rewrite Hfold.
  destruct signal_dates as [|d rest]; [done|].
  destruct (List.filter _ (d :: rest)) as [|d' rest'] eqn:E; [|done].
  by simpl.
Qed.

(** X3: a frame without a Close column gives a rate of 0, not an error. *)
Theorem calculate_win_rate_without_close (parse : Parser) (data : DataFrame)
    (signal_dates : list string) (forward_days : Z) :
  columns data !! "Close" = None ->
  calculate_win_rate parse data signal_dates forward_days = 0%Q.
Proof.
  intros Hc. unfold calculate_win_rate, win_loop.
  assert (forall acc,
            fold_left (win_step parse data forward_days) signal_dates acc = acc)
    as ->.
  { induction signal_dates as [|d rest IH]; intros acc; simpl; [done|].
    by rewrite win_step_no_close, IH. }
  by destruct signal_dates.
Qed.

Lemma calculate_win_rate_without_close_witness :
  calculate_win_rate iso_only {| index := ["2024-01-04"; "2024-01-05"];
                        columns := <["Open" := [Some 1%Q; Some 2%Q]]> ∅ |}
    ["2024-01-04"] 1 = 0%Q.
Proof.
  apply (calculate_win_rate_without_close iso_only
           {| index := ["2024-01-04"; "2024-01-05"];
              columns := <["Open" := [Some 1%Q; Some 2%Q]]> ∅ |}
           ["2024-01-04"] 1).
  reflexivity.
Defined.

(** ** MovingAverageEngine on series that contain NaN *)

Lemma fold_add_mean_omap (l : list float) (st : Z * Q) :
  fold_left add_mean l st
  = ((st.1 + Z.of_nat (length (omap id l)))%Z,
     fold_left Qplus (omap id l) st.2).
Proof.
  revert st. induction l as [|[v|] l IH]; intros [n s]; simpl.
  - f_equal. lia.
  - rewrite IH. simpl. f_equal. unfold omap. lia.
  - by rewrite IH.
Qed.

Lemma fold_remove_mean_omap (l : list float) (st : Z * Q) :
  fold_left remove_mean l st
  = ((st.1 - Z.of_nat (length (omap id l)))%Z,
     fold_left Qminus (omap id l) st.2).
Proof.
  revert st. induction l as [|[v|] l IH]; intros [n s]; simpl.
  - f_equal. lia.
  - rewrite IH. simpl. f_equal. unfold omap. lia.
  - by rewrite IH.
Qed.

Lemma omap_id_length (l : list float) : length (omap id l) <= length l.
Proof. induction l as [|[v|] l IH]; simpl; unfold omap in *; lia. Qed.

Lemma omap_id_full (l : list float) :
  length (omap id l) = length l <-> NaN ∉ l.
Proof.
  induction l as [|[v|] l IH].
  - split; [intros _; apply not_elem_of_nil|done].
  - rewrite not_elem_of_cons, <- IH.
    change (omap id (Some v :: l)) with (v :: omap id l). simpl length.
    split; [intros [= H]; by split|intros [_ H]; by rewrite H].
  - change (omap id (None :: l)) with (omap id l). simpl length.
    pose proof (omap_id_length l) as Hle. split; [lia|].
    intros Hnot. exfalso. apply Hnot. by left.
Qed.

Lemma omap_id_defined (l : list float) :
  NaN ∉ l -> l = map Some (omap id l).
Proof.
  induction l as [|[v|] l IH]; intros H; [done| |].
  - apply not_elem_of_cons in H as [_ H].
    change (omap id (Some v :: l)) with (v :: omap id l). simpl.
    f_equal. by apply IH.
  - exfalso. apply H. by left.
Qed.

Lemma defined_window_split (values : list float) (s m e : nat) :
  s <= m <= e ->
  omap id (slice values s e)
  = omap id (slice values s m) ++ omap id (slice values m e).
Proof. intros H. by rewrite (slice_split values s m e H), omap_app. Qed.

Lemma roll_step_nan_window (values : list float) (w : nat) (st : Z * Q)
    (i : nat) :
  i < length values ->
  (i = 0 \/ nan_window_state values w (i - 1) st) ->
  nan_window_state values w i (roll_step values w st i).
Proof.
  intros Hi Hprev.
  unfold nan_window_state, defined_window, roll_step, window_end,
    window_start in *.
  destruct ((i =? 0)%nat || (i - 1 + 1 <=? i + 1 - w)%nat) eqn:Hsetup.
  - rewrite fold_add_mean_omap. split; simpl; [lia|].
    pose proof (fold_Qplus_acc (omap id (slice values (i + 1 - w) (i + 1))) 0).
    lra.
  - apply orb_false_iff in Hsetup as [Hi0 Hov].
    apply Nat.eqb_neq in Hi0. apply Nat.leb_gt in Hov.
    destruct Hprev as [?|[Hn Hs]]; [lia|].
    rewrite fold_remove_mean_omap, fold_add_mean_omap.
    set (s0 := i - 1 + 1 - w) in *. set (s1 := i + 1 - w) in *.
    pose proof (defined_window_split values s0 s1 (i - 1 + 1)
      ltac:(subst s0 s1; lia)) as H3.
    pose proof (defined_window_split values s1 (i - 1 + 1) (i + 1)
      ltac:(subst s0 s1; lia)) as H4.
    split; simpl.
    + rewrite Hn, H3, H4, !length_app. lia.
    + pose proof (fold_Qplus_acc (omap id (slice values (i - 1 + 1) (i + 1)))
        (fold_left Qminus (omap id (slice values s0 s1)) st.2)) as H1.
      pose proof (fold_Qminus_acc (omap id (slice values s0 s1)) st.2) as H2.
      pose proof (sumQ_app (omap id (slice values s0 s1))
                    (omap id (slice values s1 (i - 1 + 1)))) as H5.
      pose proof (sumQ_app (omap id (slice values s1 (i - 1 + 1)))
                    (omap id (slice values (i - 1 + 1) (i + 1)))) as H6.
      rewrite <- H3 in H5. rewrite <- H4 in H6. lra.
Qed.

Lemma roll_mean_from_nan_window (values : list float) (w : nat) (minp : Z)
    (n : nat) :
  forall (st : Z * Q) (i k : nat),
    i + n = length values ->
    (i = 0 \/ nan_window_state values w (i - 1) st) ->
    k < n ->
    exists st',
      roll_mean_from values w minp st i n !! k = Some (calc_mean minp st')
      /\ nan_window_state values w (i + k) st'.
Proof.
  induction n as [|n IH]; intros st i k Hlen Hprev Hk; [lia|].
  pose proof (roll_step_nan_window values w st i ltac:(lia) Hprev) as Hstep.
  destruct k as [|k]; simpl.
  - eexists. split; [reflexivity|]. by rewrite Nat.add_0_r.
  - destruct (IH (roll_step values w st i) (S i) k) as (st' & ? & ?).
    + lia.
    + right. by replace (S i - 1) with i by lia.
    + lia.
    + exists st'. split; [done|]. by replace (i + S k) with (S i + k) by lia.
Qed.

Lemma rolling_mean_lookup_nan (values : list float) (w i : nat) :
  i < length values ->
  exists st,
    rolling_mean values w !! i = Some (calc_mean (Z.of_nat w) st)
    /\ nan_window_state values w i st.
Proof.
  intros Hi. unfold rolling_mean, roll_mean.
  destruct (roll_mean_from_nan_window values w (Z.of_nat w) (length values)
              (0%Z, 0%Q) 0 i) as (st & Hst & Hwin); [lia|by left|lia|].
  by exists st.
Qed.

Lemma omap_id_short (l : list float) :
  NaN ∈ l <-> length (omap id l) < length l.
Proof.
  induction l as [|[v|] l IH].
  - split; [by intros ?%elem_of_nil|simpl; lia].
  - change (omap id (Some v :: l)) with (v :: omap id l). simpl length.
    rewrite elem_of_cons, IH. split; [intros [[=]|?]; lia|intros ?; right; lia].
  - change (omap id (None :: l)) with (omap id l). simpl length.
    pose proof (omap_id_length l) as Hle. split; [lia|]. intros _. by left.
Qed.

(** Entry [i] of a rolling mean over a window of [w >= 1] values, on any
    series. *)
Lemma rolling_mean_entry (values : list float) (w i : nat) :
  1 <= w -> i < length values ->
  (rolling_mean values w !! i = Some NaN
   <-> i + 1 < w \/ NaN ∈ slice values (i + 1 - w) (i + 1))
  /\ (forall m : Q, rolling_mean values w !! i = Some (Some m) ->
      exists qs,
        slice values (i + 1 - w) (i + 1) = map Some qs
        /\ length qs = w
        /\ (m == sumQ qs / inject_Z (Z.of_nat w))%Q).
Proof.
  intros Hw Hi.
  destruct (rolling_mean_lookup_nan values w i Hi) as (st & -> & Hn & Hs).
  unfold defined_window, window_start, window_end in Hn, Hs.
  set (window := slice values (i + 1 - w) (i + 1)) in *.
  assert (length window = i + 1 - (i + 1 - w)) as Hlen
    by (subst window; apply slice_length; lia).
  pose proof (omap_id_length window) as Hle.
  pose proof (omap_id_short window) as Hshort.
  unfold calc_mean.
  destruct (Z.leb_spec (Z.of_nat w) st.1) as [Hfull|Hpart]; cbn [andb].
  - replace (0 <? st.1)%Z with true by (symmetry; apply Z.ltb_lt; lia).
    split.
    + split; [done|]. intros [?|Hin]; [lia|]. apply Hshort in Hin. lia.
    + intros m [= <-]. exists (omap id window). split; [|split].
      * apply omap_id_defined. intros Hin. apply Hshort in Hin. lia.
      * lia.
      * rewrite Hs. replace st.1 with (Z.of_nat w) by lia. reflexivity.
  - split; [|done]. split; [|done]. intros _.
    destruct (Nat.lt_ge_cases (i + 1) w) as [?|Hw']; [left; lia|right].
    apply Hshort. lia.
Qed.

(** X4: on any series, NaN closes included, and any window length of 1 or
    more: the average has the length of its input; entry [i] is NaN exactly
    when the window [i - period + 1 .. i] is not yet full or contains a
    NaN; every other entry is the mean of the [period] values of its
    window. *)
Theorem calculate_ma_nan_entries (prices : list float) (period : Z) :
  (1 <= period)%Z ->
  exists ma,
    calculate_ma prices period = Ok ma
    /\ length ma = length prices
    /\ forall i : nat, i < length prices ->
         (ma !! i = Some NaN
          <-> (Z.of_nat i + 1 < period)%Z
              \/ NaN ∈ slice prices (i + 1 - Z.to_nat period) (i + 1))
         /\ (forall m : Q, ma !! i = Some (Some m) ->
             exists qs,
               slice prices (i + 1 - Z.to_nat period) (i + 1) = map Some qs
               /\ Z.of_nat (length qs) = period
               /\ (m == sumQ qs / inject_Z period)%Q).
Proof.
  intros Hp. unfold calculate_ma.
  replace (period <? 0)%Z with false by (symmetry; apply Z.ltb_ge; lia).
  eexists. split; [reflexivity|]. split; [apply rolling_mean_length|].
  intros i Hi.
  destruct (rolling_mean_entry prices (Z.to_nat period) i ltac:(lia) Hi)
    as [Hnan Hmean].
  split.
  - rewrite Hnan. split; (intros [?|?]; [left; lia|by right]).
  - intros m Hm. destruct (Hmean m Hm) as (qs & Hqs & Hlen & Heq).
    exists qs. split; [done|]. split; [lia|].
    rewrite Heq. by rewrite Z2Nat.id by lia.
Qed.

Lemma calculate_ma_nan_entries_witness :
  exists ma,
    calculate_ma [Some 1%Q; NaN; Some 3%Q; Some 5%Q] 2 = Ok ma
    /\ length ma = 4
    /\ forall i : nat, i < 4 ->
         (ma !! i = Some NaN
          <-> (Z.of_nat i + 1 < 2)%Z
              \/ NaN ∈ slice [Some 1%Q; NaN; Some 3%Q; Some 5%Q]
                         (i + 1 - Z.to_nat 2) (i + 1))
         /\ (forall m : Q, ma !! i = Some (Some m) ->
             exists qs,
               slice [Some 1%Q; NaN; Some 3%Q; Some 5%Q]
                 (i + 1 - Z.to_nat 2) (i + 1) = map Some qs
               /\ Z.of_nat (length qs) = 2%Z
               /\ (m == sumQ qs / inject_Z 2)%Q).
Proof.
  apply (calculate_ma_nan_entries [Some 1%Q; NaN; Some 3%Q; Some 5%Q] 2). lia.
Defined.

Lemma all_lookup_repeat {A} (x : A) (l : list A) :
  (forall i, i < length l -> l !! i = Some x) -> l = repeat x (length l).
Proof.
  induction l as [|a l IH]; intros H; simpl; [done|].
  pose proof (H 0 ltac:(simpl; lia)) as H0. injection H0 as ->.
  f_equal. apply IH. intros i Hi. apply (H (S i)). simpl. lia.
Qed.

(** X5: a window longer than the series is not an error: every entry of the
    average is NaN. *)
Theorem calculate_ma_window_too_long (prices : list float) (period : Z) :
  (Z.of_nat (length prices) < period)%Z ->
  calculate_ma prices period = Ok (repeat NaN (length prices)).
Proof.
  intros Hlong. unfold calculate_ma.
  replace (period <? 0)%Z with false by (symmetry; apply Z.ltb_ge; lia).
  f_equal. rewrite <- (rolling_mean_length prices (Z.to_nat period)).
  apply all_lookup_repeat. intros i Hi. rewrite rolling_mean_length in Hi.
  apply (rolling_mean_entry prices (Z.to_nat period) i); [lia|done|].
  left. lia.
Qed.

Lemma calculate_ma_window_too_long_witness :
  calculate_ma [Some 1%Q; Some 2%Q; Some 3%Q] 200 = Ok [NaN; NaN; NaN].
Proof.
  apply (calculate_ma_window_too_long [Some 1%Q; Some 2%Q; Some 3%Q] 200).
  simpl. lia.
Defined.

Lemma sumQ_between (lo hi : Q) (qs : list Q) :
  Forall (fun c => lo <= c <= hi)%Q qs ->
  (inject_Z (Z.of_nat (length qs)) * lo <= sumQ qs
   <= inject_Z (Z.of_nat (length qs)) * hi)%Q.
Proof.
  induction 1 as [|q qs [Hlo Hhi] _ IH].
  - change (0 * lo <= 0 <= 0 * hi)%Q. lra.
  - simpl length. rewrite inject_Z_S, sumQ_cons. nra.
Qed.

(** X6: a moving average never leaves the range of the closes: if every close
    lies between [lo] and [hi], so does every defined entry of the average
    (in particular the average of a constant series is that constant). *)
Theorem calculate_ma_between_extremes (closes : list Q) (period : Z)
    (lo hi : Q) (ma : list float) (i : nat) (m : Q) :
  Forall (fun c => lo <= c <= hi)%Q closes ->
  calculate_ma (map Some closes) period = Ok ma ->
  ma !! i = Some (Some m) ->
  (lo <= m <= hi)%Q.
Proof.
  intros Hrange Hma Hi.
  destruct (Z.le_gt_cases period 0) as [Hnonpos|Hpos].
  { unfold calculate_ma in Hma. destruct (period <? 0)%Z; [done|].
    replace (Z.to_nat period) with 0 in Hma by lia.
    unfold rolling_mean, roll_mean in Hma. simpl Z.of_nat in Hma.
    rewrite roll_mean_from_zero_window in Hma. injection Hma as <-.
    apply list_elem_of_lookup_2, list_elem_of_In, repeat_spec in Hi. done. }
  unfold calculate_ma in Hma.
  replace (period <? 0)%Z with false in Hma
    by (symmetry; apply Z.ltb_ge; lia).
  injection Hma as <-.
  assert (i < length (map Some closes)) as Hlt.
  { apply lookup_lt_Some in Hi. by rewrite rolling_mean_length in Hi. }
  destruct (rolling_mean_entry (map Some closes) (Z.to_nat period) i
              ltac:(lia) Hlt) as [_ Hmean].
  destruct (Hmean m Hi) as (qs & Hqs & Hn & Hm).
  rewrite Z2Nat.id in Hm by lia.
  assert (Z.of_nat (length qs) = period) as Hn' by lia.
  clear Hn. rename Hn' into Hn.
  rewrite slice_fmap in Hqs.
  apply (inj (fmap Some)) in Hqs. subst qs.
  assert (Forall (fun c => lo <= c <= hi)%Q
            (slice closes (i + 1 - Z.to_nat period) (i + 1))) as Hsub
    by (unfold slice; by apply Forall_take, Forall_drop).
  pose proof (sumQ_between lo hi _ Hsub) as [Hlo Hhi].
  rewrite Hn in Hlo, Hhi.
  assert (0 < inject_Z period)%Q as Hp
    by (change 0%Q with (inject_Z 0); rewrite <- Zlt_Qlt; lia).
  rewrite Hm. split.
  - apply Qle_shift_div_l; [done|]. by rewrite Qmult_comm.
  - apply Qle_shift_div_r; [done|]. by rewrite Qmult_comm.
Qed.

Lemma calculate_ma_between_extremes_witness : (1 <= 3 # 2 <= 5)%Q.
Proof.
  apply (calculate_ma_between_extremes [1; 2; 3; 4; 5]%Q 2 1 5
           [None; Some (3 # 2); Some (5 # 2); Some (7 # 2); Some (9 # 2)]%Q
           1 (3 # 2)%Q).
  - repeat constructor; by vm_compute.
  - reflexivity.
  - reflexivity.
Defined.

(** ** TrendDetector on monotone windows *)

Lemma length_snoc_Z {A} (y : list A) (v : A) :
  Z.of_nat (length (y ++ [v])) = Z.of_nat (S (length y)).
Proof. rewrite length_app. simpl. f_equal. lia. Qed.

Lemma lag_sum_snoc (y : list Q) (u : Q) :
  (lag_sum (y ++ [u]) == lag_sum y + sumQ y + u)%Q.
Proof.
  unfold lag_sum. rewrite length_snoc_Z, arange_S, inject_Z_S.
  rewrite dot_snoc by (by rewrite arange_length, Nat2Z.id).
  rewrite sumQ_snoc. ring.
Qed.

Lemma slope_numerator_snoc (y : list Q) (v : Q) :
  (slope_numerator (y ++ [v])
   == slope_numerator y
      + (inject_Z (Z.of_nat (length y)) * (inject_Z (Z.of_nat (length y)) + 1)
         / 2 * v - lag_sum y))%Q.
Proof.
  unfold slope_numerator, lag_sum.
  rewrite length_snoc_Z, arange_S, inject_Z_S.
  rewrite dot_snoc by (by rewrite arange_length, Nat2Z.id).
  rewrite !sumQ_snoc.
  pose proof (sumQ_arange (length y)) as H1. revert H1.
  generalize (sumQ (arange (Z.of_nat (length y))))
    (dot (arange (Z.of_nat (length y))) y)
    (inject_Z (Z.of_nat (length y))) (sumQ y).
  intros S1 d N s H1.
  assert (S1 == 2 * S1 / 2)%Q as -> by field.
  rewrite H1. field.
Qed.

Lemma sumQ_sign_bound (sigma v : Q) (y : list Q) :
  Forall (fun x => 0 <= sigma * (v - x))%Q y ->
  (0 <= sigma * (inject_Z (Z.of_nat (length y)) * v - sumQ y))%Q.
Proof.
  induction 1 as [|q y Hq _ IH].
  - change (0 <= sigma * (0 * v - 0))%Q. lra.
  - simpl length. rewrite inject_Z_S, sumQ_cons.
    revert IH. generalize (inject_Z (Z.of_nat (length y))) (sumQ y).
    intros N s IH.
    assert (sigma * ((N + 1) * v - (q + s))
            == sigma * (N * v - s) + sigma * (v - q))%Q as -> by ring.
    lra.
Qed.

Lemma lag_sum_sign_bound (sigma v : Q) (y : list Q) :
  Forall (fun x => 0 <= sigma * (v - x))%Q y ->
  (0 <= sigma * (inject_Z (Z.of_nat (length y))
                 * (inject_Z (Z.of_nat (length y)) + 1) / 2 * v
                 - lag_sum y))%Q.
Proof.
  induction y as [|u y IH] using rev_ind; intros Hall.
  - change (0 <= sigma * (0 * (0 + 1) / 2 * v - (0 * 0 - 0)))%Q.
    assert (sigma * (0 * (0 + 1) / 2 * v - (0 * 0 - 0)) == 0)%Q as -> by field.
    lra.
  - apply Forall_app in Hall as [Hy Hu]. rewrite Forall_singleton in Hu.
    specialize (IH Hy). pose proof (sumQ_sign_bound sigma v y Hy) as Hs.
    rewrite length_snoc_Z, inject_Z_S, lag_sum_snoc.
    revert IH Hs.
    generalize (inject_Z (Z.of_nat (length y))) (sumQ y) (lag_sum y).
    intros N s c IH Hs.
    assert (sigma * ((N + 1) * (N + 1 + 1) / 2 * v - (c + s + u))
            == sigma * (N * (N + 1) / 2 * v - c) + sigma * (N * v - s)
               + sigma * (v - u))%Q as -> by field.
    lra.
Qed.

(** In a window sorted along [R], where [R a b] bounds the sign of
    [b - a], the numerator of the slope has that sign. *)
Lemma slope_numerator_sign (sigma : Q) (R : relation Q) (y : list Q) :
  (forall a b, R a b -> (0 <= sigma * (b - a))%Q) ->
  StronglySorted R y ->
  (0 <= sigma * slope_numerator y)%Q.
Proof.
  intros HR. induction y as [|v y IH] using rev_ind; intros Hsorted.
  - change (0 <= sigma * (0 * 0 - 0 * 0))%Q. lra.
  - apply StronglySorted_app in Hsorted as (Hlast & Hy & _).
    specialize (IH Hy).
    assert (Forall (fun x => 0 <= sigma * (v - x))%Q y) as Hall.
    { apply Forall_forall. intros x Hx. apply HR, Hlast; [done|].
      apply list_elem_of_singleton. done. }
    pose proof (lag_sum_sign_bound sigma v y Hall) as Hlag.
    rewrite slope_numerator_snoc.
    revert IH Hlag. generalize (slope_numerator y)
      (inject_Z (Z.of_nat (length y)) * (inject_Z (Z.of_nat (length y)) + 1)
       / 2 * v - lag_sum y)%Q.
    intros a g IH Hlag.
    assert (sigma * (a + g) == sigma * a + sigma * g)%Q as -> by ring. lra.
Qed.

Lemma slope_numerator_increasing (y : list Q) :
  StronglySorted Qlt y -> 2 <= length y -> (0 < slope_numerator y)%Q.
Proof.
  intros Hsorted Hlen.
  destruct y as [|v y _] using rev_ind; [simpl in Hlen; lia|].
  rewrite length_app in Hlen. simpl in Hlen.
  apply StronglySorted_app in Hsorted as (Hlast & Hy & _).
  pose proof (slope_numerator_sign 1 Qlt y ltac:(intros; lra) Hy) as Ha.
  destruct y as [|u y _] using rev_ind; [simpl in Hlen; lia|].
  assert (u < v)%Q as Huv.
  { apply Hlast; [|by apply list_elem_of_singleton].
    apply elem_of_app. right. by apply list_elem_of_singleton. }
  assert (Forall (fun x => 0 <= 1 * (v - x))%Q y) as Hall.
  { apply Forall_forall. intros x Hx.
    assert (x < v)%Q; [|lra].
    apply Hlast; [|by apply list_elem_of_singleton].
    apply elem_of_app. by left. }
  pose proof (lag_sum_sign_bound 1 v y Hall) as Hlag.
  pose proof (sumQ_sign_bound 1 v y Hall) as Hsum.
  rewrite slope_numerator_snoc, length_snoc_Z, inject_Z_S, lag_sum_snoc.
  revert Ha Hlag Hsum.
  generalize (slope_numerator (y ++ [u]))
    (inject_Z (Z.of_nat (length y))) (sumQ y) (lag_sum y).
  intros a N s c Ha Hlag Hsum.
  assert ((N + 1) * (N + 1 + 1) / 2 * v - (c + s + u)
          == (N * (N + 1) / 2 * v - c) + (N * v - s) + (v - u))%Q as Heq
    by field.
  lra.
Qed.

Lemma ols_slope_numerator (n : nat) (ys : list Q) :
  length ys = n ->
  (ols_slope (arange (Z.of_nat n)) ys
   == slope_numerator ys
      / (inject_Z (Z.of_nat n)
         * dot (arange (Z.of_nat n)) (arange (Z.of_nat n))
         - sumQ (arange (Z.of_nat n)) * sumQ (arange (Z.of_nat n))))%Q.
Proof.
  intros <-. unfold ols_slope, slope_numerator.
  by rewrite arange_length, Nat2Z.id.
Qed.

Lemma slope_numerator_decreasing (y : list Q) :
  StronglySorted (fun a b => b < a)%Q y -> 2 <= length y ->
  (slope_numerator y < 0)%Q.
Proof.
  intros Hsorted Hlen.
  destruct y as [|v y _] using rev_ind; [simpl in Hlen; lia|].
  rewrite length_app in Hlen. simpl in Hlen.
  apply StronglySorted_app in Hsorted as (Hlast & Hy & _).
  pose proof (slope_numerator_sign (-1) (fun a b => b < a)%Q y
                ltac:(intros a b Hab; simpl in Hab; lra) Hy) as Ha.
  destruct y as [|u y _] using rev_ind; [simpl in Hlen; lia|].
  assert (v < u)%Q as Huv.
  { apply Hlast; [|by apply list_elem_of_singleton].
    apply elem_of_app. right. by apply list_elem_of_singleton. }
  assert (Forall (fun x => 0 <= (-1) * (v - x))%Q y) as Hall.
  { apply Forall_forall. intros x Hx.
    assert (v < x)%Q; [|lra].
    apply Hlast; [|by apply list_elem_of_singleton].
    apply elem_of_app. by left. }
  pose proof (lag_sum_sign_bound (-1) v y Hall) as Hlag.
  pose proof (sumQ_sign_bound (-1) v y Hall) as Hsum.
  rewrite slope_numerator_snoc, length_snoc_Z, inject_Z_S, lag_sum_snoc.
  revert Ha Hlag Hsum.
  generalize (slope_numerator (y ++ [u]))
    (inject_Z (Z.of_nat (length y))) (sumQ y) (lag_sum y).
  intros a N s c Ha Hlag Hsum.
  assert ((N + 1) * (N + 1 + 1) / 2 * v - (c + s + u)
          == (N * (N + 1) / 2 * v - c) + (N * v - s) + (v - u))%Q as Heq
    by field.
  lra.
Qed.

(** X7: when the last [lookback] values of the series are all defined and
    strictly increasing, their least-squares slope is strictly positive, and
    the trend test says yes whenever the slope the solver returns is off by
    less than that slope; when they are strictly decreasing, the
    least-squares slope is strictly negative and the test says no under the
    same accuracy. *)
Theorem is_ma_trending_up_monotone (lstsq : Solver) (ma : list float)
    (lookback : Z) (ys : list Q) (slope err : Q) :
  (2 <= lookback)%Z ->
  Z.of_nat (length ys) = lookback ->
  tail (Z.to_nat lookback) ma = map Some ys ->
  computed_slope lstsq lookback ys = Some slope ->
  (ols_slope (arange lookback) ys - err <= slope
   <= ols_slope (arange lookback) ys + err)%Q ->
  (StronglySorted Qlt ys ->
     (0 < ols_slope (arange lookback) ys)%Q
     /\ ((err < ols_slope (arange lookback) ys)%Q ->
         is_ma_trending_up lstsq ma lookback = Ok true))
  /\ (StronglySorted (fun a b => b < a)%Q ys ->
      (ols_slope (arange lookback) ys < 0)%Q
      /\ ((ols_slope (arange lookback) ys < - err)%Q ->
          is_ma_trending_up lstsq ma lookback = Ok false)).
Proof.
  intros Hk Hlen Htail Hslope Herr.
  assert (Z.to_nat lookback <= length ma) as Hma.
  { apply (f_equal length) in Htail. rewrite length_map in Htail.
    unfold tail in Htail. rewrite length_drop in Htail. lia. }
  rewrite is_ma_trending_up_recent, Htail, mapM_id_Some, Hslope by lia.
  destruct (fgt_within _ _ _ Herr) as [Hup Hdown].
  revert Hup Hdown.
  replace (arange lookback) with (arange (Z.of_nat (length ys)))
    by (by rewrite Hlen).
  intros Hup Hdown.
  pose proof (arange_determinant (length ys) ltac:(lia)) as HD.
  pose proof (ols_slope_numerator (length ys) ys eq_refl) as Hnum.
  split; intros Hsorted.
  - split; [|by intros Ha; rewrite Hup].
    rewrite Hnum. apply Qlt_shift_div_l; [done|].
    pose proof (slope_numerator_increasing ys Hsorted ltac:(lia)). lra.
  - split; [|by intros Ha; rewrite Hdown].
    rewrite Hnum. apply Qlt_shift_div_r; [done|].
    pose proof (slope_numerator_decreasing ys Hsorted ltac:(lia)). lra.
Qed.

Lemma is_ma_trending_up_monotone_witness :
  (0 < ols_slope (arange 3) [1; 2; 4])%Q
  /\ ((0 < ols_slope (arange 3) [1; 2; 4])%Q ->
      is_ma_trending_up exact_solver [NaN; Some 1%Q; Some 2%Q; Some 4%Q] 3
      = Ok true).
Proof.
  apply (is_ma_trending_up_monotone exact_solver
           [NaN; Some 1%Q; Some 2%Q; Some 4%Q] 3 [1; 2; 4]%Q
           (ols_slope (canonical (arange 3)) (canonical [1; 2; 4]%Q)) 0).
  - lia.
  - reflexivity.
  - reflexivity.
  - reflexivity.
  - split; by vm_compute.
  - repeat constructor; by vm_compute.
Defined.

Lemma tail_app_exact {A} (pre suf : list A) :
  tail (length suf) (pre ++ suf) = suf.
Proof.
  unfold tail. rewrite length_app.
  replace (length pre + length suf - length suf) with (length pre) by lia.
  by rewrite drop_app_length.
Qed.

(** X8: with the default lookback of 5 the least-squares slope of the last
    five values is a tenth of twice the rise from the first to the last
    value plus the rise from the second to the fourth; the middle value
    plays no part in it.  The trend test says yes when that number is above
    the error of the slope the solver returns, and no when it is below the
    negated error. *)
Theorem is_ma_trending_up_default_lookback (lstsq : Solver) (ma : list float)
    (y0 y1 y2 y3 y4 slope err : Q) :
  let a := ((1 # 10) * (2 * (y4 - y0) + (y3 - y1)))%Q in
  let series := ma ++ [Some y0; Some y1; Some y2; Some y3; Some y4] in
  computed_slope lstsq 5 [y0; y1; y2; y3; y4] = Some slope ->
  (a - err <= slope <= a + err)%Q ->
  (forall a' b',
     least_squares_line (arange 5) [y0; y1; y2; y3; y4] a' b' -> (a' == a)%Q)
  /\ ((err < a)%Q -> is_ma_trending_up lstsq series 5 = Ok true)
  /\ ((a < - err)%Q -> is_ma_trending_up lstsq series 5 = Ok false).
Proof.
  intros a series Hslope Herr. subst series.
  assert (ols_slope (arange 5) [y0; y1; y2; y3; y4] == a)%Q as Hform.
  { subst a. unfold ols_slope, dot, sumQ, arange. simpl.
    change (inject_Z 0) with 0%Q. change (inject_Z 1) with 1%Q.
    change (inject_Z 2) with 2%Q. change (inject_Z 3) with 3%Q.
    change (inject_Z 4) with 4%Q. change (inject_Z 5) with 5%Q. field. }
  split.
  { intros a' b' Hfit. rewrite <- Hform.
    by apply (arange_least_squares 5 [y0; y1; y2; y3; y4]) with b'. }
  rewrite is_ma_trending_up_recent
    by (rewrite length_app; simpl length; lia).
  change (Z.to_nat 5) with (length [Some y0; Some y1; Some y2; Some y3; Some y4]).
  rewrite tail_app_exact.
  change [Some y0; Some y1; Some y2; Some y3; Some y4]
    with (map Some [y0; y1; y2; y3; y4]).
  rewrite mapM_id_Some, Hslope.
  destruct (fgt_within _ _ _ Herr) as [Hup Hdown].
  split; intros Ha; f_equal; auto.
Qed.

Lemma is_ma_trending_up_default_lookback_witness :
  is_ma_trending_up exact_solver
    [Some 3%Q; Some 0%Q; Some 7%Q; Some 6%Q; Some 4%Q] 5 = Ok true.
Proof.
  apply (is_ma_trending_up_default_lookback exact_solver []
           3 0 7 6 4
           (ols_slope (canonical (arange 5)) (canonical [3; 0; 7; 6; 4]%Q))
           0).
  - reflexivity.
  - split; by vm_compute.
  - by vm_compute.
Defined.

(** ** CrossDetector on arbitrary series *)

Lemma last_two {A} (l : list A) :
  2 <= length l -> exists pre a b, l = pre ++ [a; b].
Proof.
  intros Hlen.
  destruct l as [|b l _] using rev_ind; [simpl in Hlen; lia|].
  rewrite length_app in Hlen. simpl in Hlen.
  destruct l as [|a l _] using rev_ind; [simpl in Hlen; lia|].
  exists l, a, b. by rewrite <- app_assoc.
Qed.

(** X9: neither detector ever raises, and neither ever signals on a missing
    value: a bottom cross needs three defined numbers with
    [low <= ma200 < close] (so the low is below the close), and a golden
    cross is reported only for two series that both end in two defined
    values, the short one below the long one before and at or above it
    now. *)
Theorem cross_detectors_need_defined_values (low close ma200 : float)
    (ma_short ma_long : list float) :
  (check_bottom_cross_ma200 low close ma200 = true
   <-> exists l c m, low = Some l /\ close = Some c /\ ma200 = Some m
                     /\ (l <= m /\ m < c)%Q)
  /\ exists b,
       check_golden_cross ma_short ma_long = Ok b
       /\ (b = true
           <-> exists pre_s ps cs pre_l pl cl,
                 ma_short = pre_s ++ [Some ps; Some cs]
                 /\ ma_long = pre_l ++ [Some pl; Some cl]
                 /\ (ps < pl /\ cl <= cs)%Q).
Proof.
  split.
  - unfold check_bottom_cross_ma200. split.
    + intros H. apply andb_true_iff in H as [Hle Hlt].
      destruct low as [l|], ma200 as [m|], close as [c|]; try done.
      apply fle_Some in Hle. apply flt_Some in Hlt.
      by exists l, c, m.
    + intros (l & c & m & -> & -> & -> & Hle & Hlt).
      apply andb_true_iff. by rewrite fle_Some, flt_Some.
  - unfold check_golden_cross.
    destruct (Nat.ltb_spec (length ma_short) 2) as [Hs|Hs].
    { exists false. split; [done|]. split; [done|].
      intros (pre_s & ps & cs & ? & ? & ? & -> & _).
      rewrite length_app in Hs. simpl in Hs. lia. }
    destruct (Nat.ltb_spec (length ma_long) 2) as [Hl|Hl].
    { exists false. split; [done|]. split; [done|].
      intros (? & ? & ? & pre_l & pl & cl & _ & -> & _).
      rewrite length_app in Hl. simpl in Hl. lia. }
    destruct (last_two ma_short Hs) as (pre_s & a & b & ->).
    destruct (last_two ma_long Hl) as (pre_l & a' & b' & ->).
    cbn [orb].
    rewrite (iloc_from_end pre_s _ 2 a) by (simpl; done || lia).
    rewrite (iloc_from_end pre_l _ 2 a') by (simpl; done || lia).
    rewrite (iloc_from_end pre_s _ 1 b) by (simpl; done || lia).
    rewrite (iloc_from_end pre_l _ 1 b') by (simpl; done || lia).
    cbn [rbind]. eexists. split; [reflexivity|]. split.
    + intros H. apply andb_true_iff in H as [Hlt Hge]. unfold fge in Hge.
      destruct a as [ps|], a' as [pl|], b as [cs|], b' as [cl|]; try done.
      apply flt_Some in Hlt. apply fle_Some in Hge.
      by exists pre_s, ps, cs, pre_l, pl, cl.
    + intros (pre_s' & ps & cs & pre_l' & pl & cl & Es & El & Hlt & Hge).
      apply app_inj_2 in Es as [_ [= -> ->]]; [|done].
      apply app_inj_2 in El as [_ [= -> ->]]; [|done].
      apply andb_true_iff. unfold fge. by rewrite flt_Some, fle_Some.
Qed.

(** ** ScreeningOrchestrator on arbitrary frames *)

Lemma preserves_refl (d0 : DataFrame) : preserves d0 d0.
Proof. by split. Qed.

Lemma runs_ret {A} (d0 : DataFrame) (a : A) (P : A -> Prop) :
  P a -> runs d0 (ret a) P.
Proof. intros Ha d Hd. by split. Qed.

Lemma runs_bind {A B} (d0 : DataFrame) (c : M A) (k : A -> M B)
    (Q : A -> Prop) (P : B -> Prop) :
  runs d0 c Q -> (forall a, Q a -> runs d0 (k a) P) -> runs d0 (bind c k) P.
Proof.
  intros Hc Hk d Hd. unfold bind.
  destruct (Hc d Hd) as [Hd' Ha]. destruct (c d) as [[a|e] d']; simpl in *.
  - by apply Hk.
  - by split.
Qed.

Lemma runs_lift {A} (d0 : DataFrame) (r : result A) (P : A -> Prop) :
  (forall a, r = Ok a -> P a) -> runs d0 (lift r) P.
Proof. intros Hr d Hd. split; [done|]. simpl. destruct r; auto. Qed.

Lemma runs_read {A} (d0 : DataFrame) (f : DataFrame -> A) (P : A -> Prop) :
  (forall d, preserves d0 d -> P (f d)) -> runs d0 (read f) P.
Proof. intros Hf d Hd. split; [done|]. simpl. by apply Hf. Qed.

Lemma runs_load (d0 : DataFrame) (name : string) :
  runs d0 (load name) (fun _ => True).
Proof. intros d Hd. split; [done|]. simpl. by destruct (getitem d name). Qed.

Lemma runs_store (d0 : DataFrame) (name : string) (c : list float) :
  derived_column name = true -> runs d0 (store name c) (fun _ => True).
Proof.
  intros Hname d [Hidx Hcols]. split; [|done]. split; [done|].
  intros c' Hc'. simpl. rewrite lookup_insert_ne; [by apply Hcols|].
  intros ->. congruence.
Qed.

Lemma runs_row_last (d0 : DataFrame) :
  runs d0 (fun data => (row_last data, data))
    (fun r => last (index d0) = Some (row_name r)
              /\ forall v, row_get r "Close" = Ok v ->
                   exists c, getitem d0 "Close" = Ok c /\ v = latest c).
Proof.
  intros d [Hidx Hcols]. split; [done|]. simpl.
  destruct (row_last d) as [r|] eqn:Hrow; [|done]. split.
  - unfold row_last in Hrow. rewrite Hidx in Hrow.
    destruct (last (index d0)); [|done]. by injection Hrow as <-.
  - intros v Hv. rewrite (row_get_last d "Close" r Hrow) in Hv.
    unfold getitem in *. rewrite (Hcols "Close" eq_refl) in Hv.
    destruct (columns d0 !! "Close") as [c|]; [|done].
    injection Hv as <-. by exists c.
Qed.

Lemma runs_lift_any {A} (d0 : DataFrame) (r : result A) :
  runs d0 (lift r) (fun _ => True).
Proof. by apply runs_lift. Qed.

Lemma runs_read_any {A} (d0 : DataFrame) (f : DataFrame -> A) :
  runs d0 (read f) (fun _ => True).
Proof. by apply runs_read. Qed.

Ltac run_step :=
  eapply runs_bind;
  [ first [ apply runs_load | apply runs_store; reflexivity
          | apply runs_lift_any | apply runs_read_any ]
  | intros ? _ ].

(** What holds of [screen_body] on every frame. *)
Lemma screen_body_runs (lstsq : Solver) (min_volume : Z) (info : result
    (gmap string string))
    (code name : string) (data : DataFrame) :
  runs data (screen_body lstsq min_volume info code name)
    (fun r => forall sr, r = Some sr ->
       (200 <= len data)%Z
       /\ r_code sr = code
       /\ r_name sr = resolve_name info code name
       /\ r_ma200_trend sr = "上昇"
       /\ (r_bottom_cross sr = "✅" \/ r_golden_cross sr = "✅")
       /\ r_risk_tag sr = risk_tag (r_avg_volume_30d sr)
       /\ flt (r_avg_volume_30d sr) (of_int min_volume) = false
       /\ last (index data) = Some (r_date sr)
       /\ exists c, getitem data "Close" = Ok c /\ r_price sr = latest c).
Proof.
  unfold screen_body.
  run_step.
  eapply runs_bind.
  { apply (runs_read data len (fun n => n = len data)).
    intros d [Hidx _]. unfold len. by rewrite Hidx. }
  intros n ->.
  match goal with |- context [if ?b then _ else _] => destruct b eqn:Hshort end;
    [by apply runs_ret|].
  apply orb_false_iff in Hshort as [_ Hshort]. apply Z.ltb_ge in Hshort.
  cbv zeta. do 4 run_step.
  match goal with |- context [flt ?a ?b] => destruct (flt a b) eqn:Hliq end;
    [by apply runs_ret|].
  do 9 run_step.
  eapply runs_bind; [apply runs_row_last|]. intros latest_row [Hdate Hprice].
  do 2 run_step.
  match goal with |- context [negb ?b] => destruct b end;
    [|by apply runs_ret].
  cbn [negb]. do 6 run_step.
  match goal with |- context [if ?b then _ else _] => destruct b eqn:Hany end;
    [|by apply runs_ret].
  eapply runs_bind.
  { apply (runs_lift data _ (fun v => row_get latest_row "Close" = Ok v)).
    by intros. }
  intros price Hp. apply runs_ret. intros sr [= <-]. simpl.
  repeat split; try done.
  - apply orb_true_iff in Hany as [->| ->]; [by left|by right].
  - by apply Hprice.
Qed.

(** X10: on every frame, whatever it holds and whatever goes wrong inside,
    [screen_stock] keeps the row labels and every column other than
    Volume_Yen, MA50, MA100 and MA200 as they were. *)
Theorem screen_stock_keeps_supplied_columns (lstsq : Solver) (min_volume : Z)
    (info : result (gmap string string)) (code name : string)
    (data : DataFrame) :
  index (screen_stock lstsq min_volume info code name data).2 = index data
  /\ forall c : string,
       derived_column c = false ->
       getitem (screen_stock lstsq min_volume info code name data).2 c
       = getitem data c.
Proof.
  destruct (screen_body_runs lstsq min_volume info code name data data
              (preserves_refl data)) as [[Hidx Hcols] _].
  unfold screen_stock.
  destruct (screen_body lstsq min_volume info code name data) as [[r|e] d'];
    simpl in *; (split; [done|]); intros c Hc; unfold getitem;
    by rewrite Hcols.
Qed.

(** X11: on every frame, a result is only ever returned for 200 rows or more,
    and it carries the code it was asked about, the resolved name, the
    uptrend label, at least one cross mark, the tier of its own average
    traded value, an average not below the threshold, the last row label
    as date and the last value of the supplied Close column as price. *)
Theorem screen_stock_result_fields (lstsq : Solver) (min_volume : Z)
    (info : result (gmap string string)) (code name : string)
    (data : DataFrame) (sr : SignalResult) :
  (screen_stock lstsq min_volume info code name data).1 = Some sr ->
  (200 <= len data)%Z
  /\ r_code sr = code
  /\ r_name sr = resolve_name info code name
  /\ r_ma200_trend sr = "上昇"
  /\ (r_bottom_cross sr = "✅" \/ r_golden_cross sr = "✅")
  /\ r_risk_tag sr = risk_tag (r_avg_volume_30d sr)
  /\ flt (r_avg_volume_30d sr) (of_int min_volume) = false
  /\ last (index data) = Some (r_date sr)
  /\ exists c, getitem data "Close" = Ok c /\ r_price sr = latest c.
Proof.
  destruct (screen_body_runs lstsq min_volume info code name data data
              (preserves_refl data)) as [_ Hpost].
  unfold screen_stock.
  destruct (screen_body lstsq min_volume info code name data) as [[r|e] d'];
    simpl in *; [|done].
  intros ->. by apply Hpost.
Qed.

Lemma screen_stock_result_fields_witness :
  exists c,
    getitem (history (rising_bars 250)) "Close" = Ok c
    /\ Some (inject_Z 349) = latest c.
Proof.
  apply (screen_stock_result_fields exact_solver 1000000 (Raise KeyError) "7203" "7203"
           (history (rising_bars 250))
           {| r_code := "7203"; r_name := "7203";
              r_price := Some (inject_Z 349);
              r_ma200_trend := "上昇";
              r_bottom_cross := "✅"; r_golden_cross := "—";
              r_avg_volume_30d := Some (1505250000 # 30);
              r_risk_tag := "🟡標準";
              r_date := "249" |}).
  vm_compute. reflexivity.
Defined.

(** ** The symbol universe *)

Lemma elem_of_range (a b z : Z) : z ∈ range a b <-> (a <= z < b)%Z.
Proof.
  unfold range. rewrite list_elem_of_fmap. split.
  - intros (k & -> & Hk). apply elem_of_seq in Hk. lia.
  - intros Hz. exists (Z.to_nat (z - a)). split; [lia|].
    apply elem_of_seq. lia.
Qed.

Lemma elem_of_code_ranges (z : Z) :
  z ∈ code_ranges <-> (1300 <= z < 1500 \/ 1700 <= z < 9999)%Z.
Proof.
  unfold code_ranges. rewrite !elem_of_app, !elem_of_range. lia.
Qed.

Local Opaque code_ranges.

Lemma ascending_sorted (l : list Z) :
  ascending l = true -> StronglySorted Z.lt l.
Proof.
  intros Hasc. apply Sorted_StronglySorted; [intros x y z; lia|].
  induction l as [|x [|y l] IH]; [constructor|by repeat constructor|].
  simpl in Hasc. apply andb_true_iff in Hasc as [Hxy Hrest].
  constructor; [by apply IH|]. constructor. by apply Z.ltb_lt.
Qed.

Lemma sorted_NoDup (l : list Z) : StronglySorted Z.lt l -> NoDup l.
Proof.
  induction 1 as [|x l _ IH Hall]; constructor; [|done].
  intros Hin. rewrite Forall_forall in Hall. specialize (Hall x Hin). lia.
Qed.

Lemma code_ranges_NoDup : NoDup code_ranges.
Proof. apply sorted_NoDup, ascending_sorted. by vm_compute. Qed.

Lemma code_ranges_four_digits :
  Forall (fun z => zfill 4 (str z) = str z) code_ranges.
Proof.
  apply Forall_forall. intros z Hz.
  assert (forallb (fun c => String.eqb (zfill 4 (str c)) (str c)) code_ranges
          = true) as Hall by (vm_compute; reflexivity).
  rewrite forallb_forall in Hall.
  apply String.eqb_eq. apply Hall. apply list_elem_of_In. exact Hz.
Qed.

Lemma stock_codes :
  map s_code get_jpx_stock_list = map str code_ranges.
Proof.
  unfold get_jpx_stock_list. rewrite map_map.
  apply map_ext_Forall. exact code_ranges_four_digits.
Qed.

Lemma stock_codes_NoDup : NoDup (map s_code get_jpx_stock_list).
Proof.
  rewrite stock_codes. apply (NoDup_fmap_2 str), code_ranges_NoDup.
Qed.

Lemma stock_name_is_code (row : Stock) :
  row ∈ get_jpx_stock_list -> s_name row = s_code row.
Proof.
  unfold get_jpx_stock_list. intros (z & -> & Hz)%list_elem_of_fmap.
  pose proof code_ranges_four_digits as Hall. rewrite Forall_forall in Hall.
  symmetry. exact (Hall z Hz).
Qed.

Lemma stock_count : Z.of_nat (length get_jpx_stock_list) = 8499%Z.
Proof. vm_compute. reflexivity. Qed.

(** X14: [get_jpx_stock_list] yields 8,499 rows; the codes are the decimal
    numerals of 1300..1499 and 1700..9998, each once (1500..1699 and 9999
    are absent); and in every row the name is the code itself, so the scan
    always asks the ticker for a display name. *)
Theorem get_jpx_stock_list_universe :
  Z.of_nat (length get_jpx_stock_list) = 8499%Z
  /\ NoDup (map s_code get_jpx_stock_list)
  /\ (forall c : string,
        c ∈ map s_code get_jpx_stock_list
        <-> exists z, c = str z
                      /\ (1300 <= z < 1500 \/ 1700 <= z < 9999)%Z)
  /\ Forall (fun row => s_name row = s_code row) get_jpx_stock_list.
Proof.
  split; [apply stock_count|]. split; [apply stock_codes_NoDup|]. split.
  - intros c. rewrite stock_codes, list_elem_of_fmap.
    by setoid_rewrite elem_of_code_ranges.
  - apply Forall_forall. apply stock_name_is_code.
Qed.

(** ** The scan *)

Lemma scan_fold (lstsq : Solver) (min_volume : Z) (market : string -> Ticker)
    (stocks : list Stock) :
  forall results,
    fold_left (scan_step lstsq min_volume market) stocks results
    = results ++ omap (fun row => screen_symbol lstsq min_volume market
                                    (s_code row) (s_name row)) stocks.
Proof.
  induction stocks as [|row stocks IH]; intros results; simpl.
  - by rewrite app_nil_r.
  - rewrite IH. unfold scan_step.
    destruct (screen_symbol lstsq min_volume market (s_code row) (s_name row));
      [by rewrite <- app_assoc|done].
Qed.

Lemma omap_length_le {A B} (f : A -> option B) (l : list A) :
  length (omap f l) <= length l.
Proof.
  induction l as [|a l IH]; [done|].
  change (omap f (a :: l))
    with (match f a with Some b => b :: omap f l | None => omap f l end).
  destruct (f a); simpl; lia.
Qed.

Lemma select_stocks_take (max_stocks : option Z) (stocks : list Stock) :
  exists k, select_stocks max_stocks stocks = take k stocks.
Proof.
  unfold select_stocks, head. destruct max_stocks as [n|].
  - destruct (n =? 0)%Z; [exists (length stocks); by rewrite firstn_all|].
    destruct (n <? 0)%Z; eauto.
  - exists (length stocks). by rewrite firstn_all.
Qed.

Lemma screen_symbol_post (lstsq : Solver) (min_volume : Z)
    (market : string -> Ticker)
    (code name : string) (r : SignalResult) :
  screen_symbol lstsq min_volume market code name = Some r ->
  r_code r = code
  /\ r_name r = resolve_name (t_info (market (code +:+ ".T"))) code name
  /\ (r_bottom_cross r = "✅" \/ r_golden_cross r = "✅").
Proof.
  unfold screen_symbol.
  destruct (t_history (market (code +:+ ".T"))) as [data|]; [|done].
  destruct (screen_body_runs lstsq min_volume (t_info (market (code +:+ ".T")))
              code name data data (preserves_refl data)) as [_ Hpost].
  unfold screen_stock.
  destruct (screen_body lstsq min_volume (t_info (market (code +:+ ".T")))
              code name data) as [[r'|e] d']; simpl in *; [|done].
  intros ->. specialize (Hpost r eq_refl). tauto.
Qed.

Lemma scan_codes_sublist (lstsq : Solver) (min_volume : Z)
    (market : string -> Ticker)
    (stocks : list Stock) :
  map r_code (omap (fun row => screen_symbol lstsq min_volume market
                                 (s_code row) (s_name row)) stocks)
  `sublist_of` map s_code stocks.
Proof.
  induction stocks as [|row stocks IH]; simpl; [done|].
  destruct (screen_symbol lstsq min_volume market (s_code row) (s_name row))
    as [r|] eqn:Hr; simpl.
  - apply screen_symbol_post in Hr as (-> & _). by apply sublist_skip.
  - by apply sublist_cons.
Qed.

(** X15: whatever the market answers and whatever the limit, the scan returns
    its results in the order of the code list, at most one per code (so no
    code twice and never more than 8,499 results); each result carries at
    least one cross mark, and its name is the ticker's [longName] if that
    is set and not empty, else its [shortName], else the code. *)
Theorem scan_all_stocks_results (lstsq : Solver) (min_volume : Z)
    (market : string -> Ticker)
    (max_stocks : option Z) :
  let results := scan_all_stocks lstsq min_volume market max_stocks in
  map r_code results `sublist_of` map s_code get_jpx_stock_list
  /\ NoDup (map r_code results)
  /\ (Z.of_nat (length results) <= 8499)%Z
  /\ Forall (fun r =>
        (r_bottom_cross r = "✅" \/ r_golden_cross r = "✅")
        /\ r_name r
           = match t_info (market (r_code r +:+ ".T")) with
             | Ok i => py_or (i !! "longName")
                         (py_or (i !! "shortName") (r_code r))
             | Raise _ => r_code r
             end) results.
Proof.
  intros results. subst results. unfold scan_all_stocks.
  rewrite scan_fold, app_nil_l.
  destruct (select_stocks_take max_stocks get_jpx_stock_list) as [k ->].
  assert (map r_code
            (omap (fun row => screen_symbol lstsq min_volume market
                                (s_code row) (s_name row))
               (take k get_jpx_stock_list))
          `sublist_of` map s_code get_jpx_stock_list) as Hsub.
  { etrans; [apply scan_codes_sublist|].
    change (map s_code (take k get_jpx_stock_list))
      with (s_code <$> take k get_jpx_stock_list).
    rewrite fmap_take. apply sublist_take. }
  split; [done|]. split; [|split].
  - exact (sublist_NoDup _ _ stock_codes_NoDup Hsub).
  - apply sublist_length in Hsub. rewrite !length_map in Hsub.
    pose proof stock_count. lia.
  - apply Forall_forall. intros r Hr.
    apply list_elem_of_omap in Hr as (row & Hrow & Hscreen).
    apply elem_of_take in Hrow as (i & Hrow & _).
    apply list_elem_of_lookup_2, stock_name_is_code in Hrow.
    rewrite Hrow in Hscreen.
    apply screen_symbol_post in Hscreen as (Hcode & Hname & Hmark).
    split; [done|]. rewrite Hname, Hcode. unfold resolve_name.
    by rewrite String.eqb_refl.
Qed.

(** X16: the limit only ever cuts the scan short: a scan with any limit returns
    a prefix of the unlimited scan; a limit of 0 is no limit at all; and a
    positive limit bounds the number of results. *)
Theorem scan_all_stocks_limit (lstsq : Solver) (min_volume : Z)
    (market : string -> Ticker)
    (max_stocks : option Z) (n : Z) :
  scan_all_stocks lstsq min_volume market max_stocks
    `prefix_of` scan_all_stocks lstsq min_volume market None
  /\ scan_all_stocks lstsq min_volume market (Some 0%Z)
     = scan_all_stocks lstsq min_volume market None
  /\ ((0 < n)%Z ->
      Z.of_nat (length (scan_all_stocks lstsq min_volume market (Some n))) <= n)%Z.
Proof.
  unfold scan_all_stocks. rewrite !scan_fold, !app_nil_l. split; [|split].
  - destruct (select_stocks_take max_stocks get_jpx_stock_list) as [k ->].
    simpl select_stocks.
    rewrite <- (take_drop k get_jpx_stock_list) at 2.
    rewrite omap_app. by apply prefix_app_r.
  - done.
  - intros Hn. unfold select_stocks, head.
    replace (n =? 0)%Z with false by (symmetry; apply Z.eqb_neq; lia).
    replace (n <? 0)%Z with false by (symmetry; apply Z.ltb_ge; lia).
    pose proof (omap_length_le
      (fun row => screen_symbol lstsq min_volume market (s_code row) (s_name row))
      (take (Z.to_nat n) get_jpx_stock_list)) as Hle.
    rewrite length_take in Hle. lia.
Qed.

Lemma scan_all_stocks_limit_witness :
  (Z.of_nat (length (scan_all_stocks exact_solver 1000000
      (fun _ => {| t_history := Raise KeyError; t_info := Raise KeyError |})
      (Some 3%Z))) <= 3)%Z.
Proof.
  apply (scan_all_stocks_limit exact_solver 1000000
           (fun _ => {| t_history := Raise KeyError; t_info := Raise KeyError |})
           None 3).
  lia.
Defined.

(** ** What an accepted result says about the series *)

Lemma screen_stock_history (lstsq : Solver) (min_volume : Z)
    (info : result (gmap string string)) (code name : string)
    (series : list PricePoint) (r : SignalResult) :
  (screen_stock lstsq min_volume info code name (history series)).1 = Some r ->
  200 <= length series
  /\ (inject_Z min_volume <= avg_traded_value series)%Q
  /\ r = signal_result info code name series.
Proof.
  unfold screen_stock. rewrite screen_body_history.
  destruct (Nat.ltb_spec (length series) 200) as [Hshort|Hlong]; [done|].
  unfold of_int.
  destruct (flt (Some (avg_traded_value series)) (Some (inject_Z min_volume)))
    eqn:Hliq; [done|].
  apply flt_Some_false in Hliq. simpl fst.
  destruct (trend_flag lstsq series && (bottom_flag series || golden_flag series));
    [|done].
  by intros [= <-].
Qed.

(** X12: lowering the liquidity threshold never loses a symbol: a series
    accepted under one threshold is accepted, with the same result, under
    every lower one. *)
Theorem screen_stock_threshold_monotone (lstsq : Solver)
    (min_volume min_volume' : Z)
    (info : result (gmap string string)) (code name : string)
    (series : list PricePoint) (r : SignalResult) :
  (min_volume' <= min_volume)%Z ->
  (screen_stock lstsq min_volume info code name (history series)).1 = Some r ->
  (screen_stock lstsq min_volume' info code name (history series)).1 = Some r.
Proof.
  intros Hle Hr. pose proof Hr as Hr'.
  apply screen_stock_history in Hr' as (Hlen & Havg & ->).
  revert Hr. unfold screen_stock. rewrite !screen_body_history.
  replace (length series <? 200)%nat with false
    by (symmetry; apply Nat.ltb_ge; lia).
  assert (inject_Z min_volume' <= inject_Z min_volume)%Q as Hq
    by (by rewrite <- Zle_Qle).
  replace (flt (Some (avg_traded_value series)) (of_int min_volume))
    with false by (symmetry; apply flt_Some_false; lra).
  replace (flt (Some (avg_traded_value series)) (of_int min_volume'))
    with false by (symmetry; apply flt_Some_false; lra).
  done.
Qed.

Lemma screen_stock_threshold_monotone_witness :
  (screen_stock exact_solver 1000 (Raise KeyError) "7203" "7203"
     (history (rising_bars 250))).1
  = Some {| r_code := "7203"; r_name := "7203";
            r_price := Some (inject_Z 349);
            r_ma200_trend := "上昇";
            r_bottom_cross := "✅"; r_golden_cross := "—";
            r_avg_volume_30d := Some (1505250000 # 30);
            r_risk_tag := "🟡標準";
            r_date := "249" |}.
Proof.
  apply (screen_stock_threshold_monotone exact_solver 1000000 1000 (Raise KeyError)
           "7203" "7203" (rising_bars 250)).
  - lia.
  - vm_compute. reflexivity.
Defined.

Lemma ma_last_two (series : list PricePoint) (P : nat) :
  1 <= P -> P + 1 <= length series ->
  exists pre a b,
    ma series P = pre ++ [Some a; Some b]
    /\ (a == mean_of_window (map close series) (length series - 2) P)%Q
    /\ (b == mean_of_window (map close series) (length series - 1) P)%Q.
Proof.
  intros HP Hlen. set (n := length series) in *.
  assert (length (map close series) = n) as Hn by apply length_map.
  destruct (rolling_mean_lookup (map close series) P (n - 2) HP
              ltac:(lia)) as [_ Ha].
  destruct (rolling_mean_lookup (map close series) P (n - 1) HP
              ltac:(lia)) as [_ Hb].
  destruct (Ha ltac:(lia)) as (a & Hla & Hma).
  destruct (Hb ltac:(lia)) as (b & Hlb & Hmb).
  rewrite <- column_map in Hla, Hlb. fold (ma series P) in Hla, Hlb.
  pose proof (ma_length series P) as Hlen'. fold n in Hlen'.
  destruct (last_two (ma series P) ltac:(lia)) as (pre & x & y & E).
  assert (length pre = n - 2) as Hpre.
  { apply (f_equal length) in E. rewrite length_app in E. simpl in E. lia. }
  rewrite E in Hla, Hlb.
  rewrite lookup_app_r in Hla, Hlb by lia.
  replace (n - 2 - length pre) with 0 in Hla by lia.
  replace (n - 1 - length pre) with 1 in Hlb by lia.
  simpl in Hla, Hlb. injection Hla as ->. injection Hlb as ->.
  by exists pre, a, b.
Qed.

Lemma ma_last_one (series : list PricePoint) (P : nat) :
  1 <= P -> P <= length series ->
  exists b,
    latest (ma series P) = Some b
    /\ (b == mean_of_window (map close series) (length series - 1) P)%Q.
Proof.
  intros HP Hlen. set (n := length series) in *.
  assert (length (map close series) = n) as Hn by apply length_map.
  destruct (rolling_mean_lookup (map close series) P (n - 1) HP
              ltac:(lia)) as [_ Hb].
  destruct (Hb ltac:(lia)) as (b & Hlb & Hmb).
  rewrite <- column_map in Hlb. fold (ma series P) in Hlb.
  exists b. split; [|done]. unfold latest.
  rewrite last_lookup, ma_length. fold n.
  replace (Init.Nat.pred n) with (n - 1) by lia. by rewrite Hlb.
Qed.

Lemma check_golden_cross_values (ma_short ma_long : list float)
    (ps cs pl cl : Q) :
  check_golden_cross (ma_short ++ [Some ps; Some cs])
                     (ma_long ++ [Some pl; Some cl])
  = Ok (flt (Some ps) (Some pl) && fle (Some cl) (Some cs)).
Proof.
  unfold check_golden_cross. rewrite !length_app. simpl length.
  replace (length ma_short + 2 <? 2)%nat with false
    by (symmetry; apply Nat.ltb_ge; lia).
  replace (length ma_long + 2 <? 2)%nat with false
    by (symmetry; apply Nat.ltb_ge; lia).
  cbn [orb].
  rewrite (iloc_from_end ma_short _ 2 (Some ps)) by (simpl; done || lia).
  rewrite (iloc_from_end ma_long _ 2 (Some pl)) by (simpl; done || lia).
  rewrite (iloc_from_end ma_short _ 1 (Some cs)) by (simpl; done || lia).
  rewrite (iloc_from_end ma_long _ 1 (Some cl)) by (simpl; done || lia).
  reflexivity.
Qed.

(** X13: for an accepted series the marks of the result tell the truth about
    the window means: the price and date are the close and date of the
    last bar; the bottom-cross mark is set exactly when the last low is at
    or below, and the last close strictly above, the mean of the last 200
    closes; the golden-cross mark is set exactly when the 50-bar mean was
    strictly below the 100-bar mean one bar earlier and is at or above it
    on the last bar. *)
Theorem screen_stock_marks (lstsq : Solver) (min_volume : Z)
    (info : result (gmap string string)) (code name : string)
    (series : list PricePoint) (bar : PricePoint) (r : SignalResult) :
  (screen_stock lstsq min_volume info code name (history (series ++ [bar]))).1
  = Some r ->
  let closes := map close (series ++ [bar]) in
  let n := length closes in
  r_price r = Some (close bar)
  /\ r_date r = date bar
  /\ (r_bottom_cross r = "✅"
      <-> (low bar <= mean_of_window closes (n - 1) 200
           /\ mean_of_window closes (n - 1) 200 < close bar)%Q)
  /\ (r_golden_cross r = "✅"
      <-> (mean_of_window closes (n - 2) 50 < mean_of_window closes (n - 2) 100
           /\ mean_of_window closes (n - 1) 100
              <= mean_of_window closes (n - 1) 50)%Q).
Proof.
  intros Hr closes n. apply screen_stock_history in Hr as (Hlen & _ & ->).
  subst closes n. rewrite length_map. set (s := series ++ [bar]) in *.
  destruct (ma_last_one s 200 ltac:(lia) ltac:(lia)) as (b200 & E200 & Hb200).
  destruct (ma_last_two s 100 ltac:(lia) ltac:(lia))
    as (p100 & a100 & b100 & E100 & Ha100 & Hb100).
  destruct (ma_last_two s 50 ltac:(lia) ltac:(lia))
    as (p50 & a50 & b50 & E50 & Ha50 & Hb50).
  assert (forall f, latest (column f s) = Some (f bar)) as Hlast.
  { intros f. unfold latest, column. subst s. rewrite map_app. simpl.
    by rewrite last_snoc. }
  assert (bottom_flag s = true
          <-> (low bar <= b200 /\ b200 < close bar)%Q) as Hbf.
  { unfold bottom_flag, check_bottom_cross_ma200. rewrite !Hlast, E200.
    by rewrite andb_true_iff, fle_Some, flt_Some. }
  assert (golden_flag s = true <-> (a50 < a100 /\ b100 <= b50)%Q) as Hgf.
  { unfold golden_flag. rewrite E50, E100, check_golden_cross_values.
    cbn [flag]. by rewrite andb_true_iff, flt_Some, fle_Some. }
  unfold signal_result.
  cbn [r_price r_date r_bottom_cross r_golden_cross].
  split; [apply Hlast|]. split.
  { unfold latest_date. subst s. rewrite map_app. simpl.
    by rewrite last_snoc. }
  split.
  - split.
    + intros Hmark.
      assert (bottom_flag s = true) as Hb by (by destruct (bottom_flag s)).
      apply Hbf in Hb as [H1 H2]. split; lra.
    + intros [H1 H2].
      assert (bottom_flag s = true) as -> by (apply Hbf; split; lra). done.
  - split.
    + intros Hmark.
      assert (golden_flag s = true) as Hg by (by destruct (golden_flag s)).
      apply Hgf in Hg as [H1 H2]. split; lra.
    + intros [H1 H2].
      assert (golden_flag s = true) as -> by (apply Hgf; split; lra). done.
Qed.

Lemma screen_stock_marks_witness :
  Some (inject_Z 349)
  = Some (close {| date := "249"; open := inject_Z 349; high := inject_Z 350;
                   low := 50; close := inject_Z 349; volume := 150000 |}).
Proof.
  apply (screen_stock_marks exact_solver 1000000 (Raise KeyError) "7203" "7203"
           (rising_bars 249)
           {| date := "249"; open := inject_Z 349; high := inject_Z 350;
              low := 50; close := inject_Z 349; volume := 150000 |}
           {| r_code := "7203"; r_name := "7203";
              r_price := Some (inject_Z 349);
              r_ma200_trend := "上昇";
              r_bottom_cross := "✅"; r_golden_cross := "—";
              r_avg_volume_30d := Some (1505250000 # 30);
              r_risk_tag := "🟡標準";
              r_date := "249" |}).
  vm_compute. reflexivity.
Defined.

(** ** When a series is accepted *)

Lemma tail_five {A} (l : list A) :
  5 <= length l ->
  exists a b c d e,
    tail 5 l = [a; b; c; d; e]
    /\ l !! (length l - 5) = Some a /\ l !! (length l - 4) = Some b
    /\ l !! (length l - 3) = Some c /\ l !! (length l - 2) = Some d
    /\ l !! (length l - 1) = Some e.
Proof.
  intros Hlen. unfold tail.
  assert (length (drop (length l - 5) l) = 5) as H5
    by (rewrite length_drop; lia).
  assert (forall j, l !! (length l - 5 + j) = drop (length l - 5) l !! j)
    as Hj by (intros j; by rewrite lookup_drop).
  destruct (drop (length l - 5) l) as [|a [|b [|c [|d [|e [|x rest]]]]]];
    try (simpl in H5; lia).
  exists a, b, c, d, e. split; [done|].
  pose proof (Hj 0) as H0. pose proof (Hj 1) as H1. pose proof (Hj 2) as H2.
  pose proof (Hj 3) as H3. pose proof (Hj 4) as H4.
  replace (length l - 5 + 0) with (length l - 5) in H0 by lia.
  replace (length l - 5 + 1) with (length l - 4) in H1 by lia.
  replace (length l - 5 + 2) with (length l - 3) in H2 by lia.
  replace (length l - 5 + 3) with (length l - 2) in H3 by lia.
  replace (length l - 5 + 4) with (length l - 1) in H4 by lia.
  done.
Qed.

Lemma ma_lookup_mean (series : list PricePoint) (P i : nat) (v : float) :
  1 <= P -> P <= i + 1 -> i < length series ->
  ma series P !! i = Some v ->
  exists m, v = Some m
            /\ (m == mean_of_window (map close series) i P)%Q.
Proof.
  intros HP Hi Hlen Hv.
  destruct (rolling_mean_lookup (map close series) P i HP
              ltac:(by rewrite length_map)) as [_ Hm].
  destruct (Hm Hi) as (m & Hlookup & Hmean).
  rewrite <- column_map in Hlookup. fold (ma series P) in Hlookup.
  exists m. split; [congruence|done].
Qed.

(** With 204 bars or more, the trend test of the pipeline is the sign test
    on the slope the solver returns for the last five 200-bar means. *)
Lemma trend_flag_means (lstsq : Solver) (series : list PricePoint) :
  204 <= length series ->
  trend_flag lstsq series
  = fgt (computed_slope lstsq 5
           (map (fun k => mean_of_window (map close series)
                            (length series - k) 200) [5; 4; 3; 2; 1]))
      (of_int 0).
Proof.
  intros Hlen. pose proof (ma_length series 200) as Hma.
  destruct (tail_five (ma series 200) ltac:(lia))
    as (v0 & v1 & v2 & v3 & v4 & Htail & H0 & H1 & H2 & H3 & H4).
  rewrite Hma in H0, H1, H2, H3, H4.
  apply ma_lookup_mean in H0 as (m0 & -> & E0); [|lia..].
  apply ma_lookup_mean in H1 as (m1 & -> & E1); [|lia..].
  apply ma_lookup_mean in H2 as (m2 & -> & E2); [|lia..].
  apply ma_lookup_mean in H3 as (m3 & -> & E3); [|lia..].
  apply ma_lookup_mean in H4 as (m4 & -> & E4); [|lia..].
  unfold trend_flag. rewrite is_ma_trending_up_recent by lia.
  change (Z.to_nat 5) with 5. rewrite Htail.
  change (mapM id [Some m0; Some m1; Some m2; Some m3; Some m4])
    with (Some [m0; m1; m2; m3; m4]).
  cbn [flag]. unfold computed_slope, canonical. cbn [map].
  by rewrite (Qred_complete _ _ E0), (Qred_complete _ _ E1),
    (Qred_complete _ _ E2), (Qred_complete _ _ E3), (Qred_complete _ _ E4).
Qed.

(** With 200 to 203 bars the window of the trend test holds a NaN. *)
Lemma trend_flag_short (lstsq : Solver) (series : list PricePoint) :
  200 <= length series <= 203 -> trend_flag lstsq series = false.
Proof.
  intros [Hlo Hhi]. unfold trend_flag.
  rewrite is_ma_trending_up_recent by (rewrite ma_length; lia).
  replace (mapM id (tail (Z.to_nat 5) (ma series 200))) with (@None (list Q));
    [done|].
  symmetry. apply mapM_None_2, Exists_exists. exists NaN. split; [|done].
  apply list_elem_of_lookup. exists 0. unfold tail.
  rewrite lookup_drop, Nat.add_0_r, ma_length. unfold ma. rewrite column_map.
  apply (rolling_mean_lookup (map close series) 200); rewrite ?length_map; lia.
Qed.

Lemma bottom_flag_means (series : list PricePoint) (bar : PricePoint) :
  200 <= length (series ++ [bar]) ->
  bottom_flag (series ++ [bar]) = true
  <-> (low bar <= mean_of_window (map close (series ++ [bar]))
                    (length (series ++ [bar]) - 1) 200
       /\ mean_of_window (map close (series ++ [bar]))
            (length (series ++ [bar]) - 1) 200 < close bar)%Q.
Proof.
  intros Hlen. set (s := series ++ [bar]) in *.
  destruct (ma_last_one s 200 ltac:(lia) ltac:(lia)) as (b200 & E200 & Hb200).
  assert (forall f, latest (column f s) = Some (f bar)) as Hlast.
  { intros f. unfold latest, column. subst s. rewrite map_app. simpl.
    by rewrite last_snoc. }
  unfold bottom_flag, check_bottom_cross_ma200. rewrite !Hlast, E200.
  rewrite andb_true_iff, fle_Some, flt_Some. by rewrite Hb200.
Qed.

Lemma golden_flag_means (series : list PricePoint) :
  101 <= length series ->
  golden_flag series = true
  <-> (mean_of_window (map close series) (length series - 2) 50
       < mean_of_window (map close series) (length series - 2) 100
       /\ mean_of_window (map close series) (length series - 1) 100
          <= mean_of_window (map close series) (length series - 1) 50)%Q.
Proof.
  intros Hlen.
  destruct (ma_last_two series 100 ltac:(lia) ltac:(lia))
    as (p100 & a100 & b100 & E100 & Ha100 & Hb100).
  destruct (ma_last_two series 50 ltac:(lia) ltac:(lia))
    as (p50 & a50 & b50 & E50 & Ha50 & Hb50).
  unfold golden_flag. rewrite E50, E100, check_golden_cross_values.
  cbn [flag]. rewrite andb_true_iff, flt_Some, fle_Some.
  by rewrite Ha50, Ha100, Hb50, Hb100.
Qed.

(** X19: what the pipeline accepts, said on the closes themselves.
    [screen_stock] returns a result exactly when the series has at least
    204 bars (with fewer the trend test has no five values), the mean
    traded value of the last 30 bars is at least the threshold, the slope
    the solver returns for the last five 200-bar means is strictly
    positive, and either the last low is at or below, and the last close
    strictly above, the mean of the last 200 closes, or the 50-bar mean was
    strictly below the 100-bar mean one bar earlier and is at or above it
    on the last bar. *)
Theorem screen_stock_acceptance (lstsq : Solver) (min_volume : Z)
    (info : result (gmap string string)) (code name : string)
    (series : list PricePoint) :
  let closes := map close series in
  let n := length series in
  (exists r,
     (screen_stock lstsq min_volume info code name (history series)).1
     = Some r)
  <-> 204 <= n
      /\ (inject_Z min_volume <= avg_traded_value series)%Q
      /\ fgt (computed_slope lstsq 5
                (map (fun k => mean_of_window closes (n - k) 200)
                   [5; 4; 3; 2; 1]))
            (of_int 0) = true
      /\ exists bar,
           last series = Some bar
           /\ ((low bar <= mean_of_window closes (n - 1) 200
                /\ mean_of_window closes (n - 1) 200 < close bar)%Q
               \/ (mean_of_window closes (n - 2) 50
                   < mean_of_window closes (n - 2) 100
                   /\ mean_of_window closes (n - 1) 100
                      <= mean_of_window closes (n - 1) 50)%Q).
Proof.
  intros closes n. subst closes n.
  unfold screen_stock. rewrite screen_body_history.
  destruct (Nat.ltb_spec (length series) 200) as [Hshort|Hlong].
  { split; [by intros [? [=]]|]. intros [? _]. lia. }
  unfold of_int at 1.
  destruct (flt (Some (avg_traded_value series)) (Some (inject_Z min_volume)))
    eqn:Hliq.
  { apply flt_Some in Hliq. split; [by intros [? [=]]|].
    intros (_ & ? & _). lra. }
  apply flt_Some_false in Hliq. cbn [fst].
  destruct (Nat.le_gt_cases 204 (length series)) as [H204|H203].
  2:{ rewrite trend_flag_short by lia. cbn [andb].
      split; [by intros [? [=]]|]. intros [? _]. lia. }
  rewrite trend_flag_means by done.
  destruct (last series) as [bar|] eqn:Elast;
    [|apply last_None in Elast; subst series; simpl in H204; lia].
  apply last_Some in Elast as [pre ->].
  pose proof (bottom_flag_means pre bar ltac:(lia)) as Hb.
  pose proof (golden_flag_means (pre ++ [bar]) ltac:(lia)) as Hg.
  destruct (fgt _ (of_int 0)); cbn [andb].
  - split.
    + intros [r Hr]. split; [done|]. split; [done|]. split; [done|].
      exists bar. split; [done|].
      destruct (bottom_flag (pre ++ [bar])); [left; by apply Hb|].
      destruct (golden_flag (pre ++ [bar])); [right; by apply Hg|].
      discriminate Hr.
    + intros (_ & _ & _ & bar' & [= <-] & [Hbot|Hgold]).
      * apply Hb in Hbot. rewrite Hbot. by eexists.
      * apply Hg in Hgold. rewrite Hgold, orb_true_r. by eexists.
  - split; [by intros [? [=]]|]. by intros (_ & _ & ? & _).
Qed.

(** ** Notifier *)

(** X17: a notification posts at most one request, and only to the webhook of
    the selected service: to the Slack webhook with the message under
    [text] when the service is "slack", to the Discord webhook under
    [content] when it is "discord", in both cases only if that webhook is
    set and not empty; any other service name posts nothing.  The call
    fails exactly when a request was posted and [requests.post] raised:
    that exception is not caught. *)
Theorem notify_posts (service : string)
    (slack_webhook discord_webhook : option string)
    (post : string -> string -> string -> result Z)
    (today : string) (fmt0 fmt1 : float -> string)
    (results : list SignalResult) :
  let message := format_message today fmt0 fmt1 results in
  let run := notify service slack_webhook discord_webhook post today
               fmt0 fmt1 results in
  let target :=
    if String.eqb service "slack"
    then (fun url => (url, "text")) <$> webhook_set slack_webhook
    else if String.eqb service "discord"
    then (fun url => (url, "content")) <$> webhook_set discord_webhook
    else None in
  match target with
  | Some (url, key) =>
      posts run.1 = [Post url key message]
      /\ (forall e, run.2 = Raise e <-> post url key message = Raise e)
  | None => posts run.1 = [] /\ run.2 = Ok tt
  end.
Proof.
  cbv zeta. unfold notify. cbn [fst snd]. unfold posts.
  rewrite List.filter_app. cbn [List.filter app].
  destruct (String.eqb service "slack").
  - unfold send_slack. destruct (webhook_set slack_webhook) as [url|];
      cbn [fmap option_fmap option_map]; [|done].
    destruct (post url "text" (format_message today fmt0 fmt1 results))
      as [status|e]; cbn; (split; [done|]); intros e'; split; congruence.
  - destruct (String.eqb service "discord"); [|done].
    unfold send_discord. destruct (webhook_set discord_webhook) as [url|];
      cbn [fmap option_fmap option_map]; [|done].
    destruct (post url "content" (format_message today fmt0 fmt1 results))
      as [status|e]; cbn; (split; [done|]); intros e'; split; congruence.
Qed.

(** X18: the message shows the first ten results and, of the others, only
    their number: result lists of the same length that agree on their
    first ten entries give the same message. *)
Theorem format_message_first_ten (today : string)
    (fmt0 fmt1 : float -> string) (results results' : list SignalResult) :
  length results = length results' ->
  take 10 results = take 10 results' ->
  format_message today fmt0 fmt1 results
  = format_message today fmt0 fmt1 results'.
Proof.
  intros Hlen Htake. unfold format_message.
  destruct results as [|r rest], results' as [|r' rest']; try done.
  by rewrite Hlen, Htake.
Qed.

Lemma format_message_first_ten_witness :
  format_message "2024年01月05日" (fun _ => "0") (fun _ => "0.0")
    (replicate 10 (signal_result (Raise KeyError) "7203" "7203" [])
     ++ [signal_result (Raise KeyError) "6758" "6758" []])
  = format_message "2024年01月05日" (fun _ => "0") (fun _ => "0.0")
      (replicate 10 (signal_result (Raise KeyError) "7203" "7203" [])
       ++ [signal_result (Raise KeyError) "9984" "9984" []]).
Proof.
  apply (format_message_first_ten "2024年01月05日"
           (fun _ => "0") (fun _ => "0.0")
           (replicate 10 (signal_result (Raise KeyError) "7203" "7203" [])
            ++ [signal_result (Raise KeyError) "6758" "6758" []])
           (replicate 10 (signal_result (Raise KeyError) "7203" "7203" [])
            ++ [signal_result (Raise KeyError) "9984" "9984" []]));
    reflexivity.
Defined.
